(** * SA-MP server monitor: a shallow embedding of [samp_server_monitor.py]

    The development follows the Python module top-down: the exception
    model, the UDP query client ([SAMPServerQuery]), the prober
    ([ServerMonitor.check_server]), the transition handler
    ([ServerMonitor.handle_server_status_change]), and the polling loop with
    its start/stop operations, modelled as a small-step machine over the
    threads of the process.  The notifier with its embed and transport, the
    construction of the monitor from a configuration file and the status
    report follow, with the properties of the loop as a whole.

    Conventions.
    - A Python dict used as a struct (a server's configuration, a status
      snapshot) is a record; a key that the code reads with [.get(key, dflt)]
      or that only one construction site sets is an [option] field, and
      [get field dflt] is the lookup with default.  The dict
      [self.server_states], used as a map from names to snapshots, is a
      [gmap string Status.t].
    - Python integers are [Z].  The load ratios are Python floats obtained by
      one true division of two integers and compared with the literal 0.8;
      they are modelled by exact rationals [Q].  For operands below 2^53 the
      correctly rounded quotient compares with the double nearest to 0.8
      exactly as the rational quotient compares with 4/5.
    - Everything the outside world decides (datagram replies, the clock) is
      an explicit environment argument.
    - Calls to [logger] are not modelled, except for the dictionary
      subscripts evaluated in their arguments, which can raise. *)

From Stdlib Require Import ZArith QArith String Ascii List.
From stdpp Require Import gmap strings pretty.

Open Scope Z_scope.

(** ** Exceptions and results *)

Inductive exn : Type :=
| SAMPQueryException (msg : string)
| ZeroDivisionError
| KeyError (key : string)
| ValueError (msg : string).

(** [str(e)] for the exceptions above. *)
Definition str_exn (e : exn) : string :=
  match e with
  | SAMPQueryException msg => msg
  | ZeroDivisionError => "division by zero"
  | KeyError key => "'" +:+ key +:+ "'"
  | ValueError msg => msg
  end.

Inductive result (A : Type) : Type :=
| Ok (a : A)
| Raise (e : exn).
Arguments Ok {A} a.
Arguments Raise {A} e.

Global Instance result_ret : MRet result := fun A a => Ok a.
Global Instance result_bind : MBind result := fun A B f m =>
  match m with
  | Ok a => f a
  | Raise e => Raise e
  end.

(** [try: body except SAMPQueryException as e: handler(e)]; any other
    exception propagates. *)
Definition try_except_query {A} (body : result A) (handler : exn -> result A)
  : result A :=
  match body with
  | Raise (SAMPQueryException msg) => handler (SAMPQueryException msg)
  | other => other
  end.

(** [.get(key, dflt)] on an optional key. *)
Definition get {A} (entry : option A) (dflt : A) : A := default dflt entry.

(** [d[key]]: raises [KeyError] when the key is missing. *)
Definition subscript {A} (key : string) (entry : option A) : result A :=
  match entry with
  | Some v => Ok v
  | None => Raise (KeyError key)
  end.

(** [a / b] on integers. *)
Definition truediv (a b : Z) : result Q :=
  if b =? 0 then Raise ZeroDivisionError
  else Ok (inject_Z a / inject_Z b)%Q.

(** [x < y] on rationals, as a boolean. *)
Definition Qlt_bool (x y : Q) : bool := negb (Qle_bool y x).

(** ** The query client *)

(** What the network does with one query datagram. *)
Inductive datagram : Type :=
| Reply (text : string)            (* [recvfrom] returned; decoded text *)
| TimedOut                         (* [socket.timeout] *)
| SocketError (detail : string).   (* any other exception, with its [str] *)

(** The environment of one probe of one server. *)
Record probe_env : Type := {
  udp : string -> datagram;   (* the outcome of the query with this opcode *)
  elapsed_ms : Z;             (* [int((time.time() - start) * 1000)] *)
  utcnow : string             (* [datetime.utcnow().isoformat()] *)
}.

Record SAMPServerQuery : Type := {
  q_host : string;
  q_port : Z;
  q_timeout : Z
}.

Definition _send_query (self : SAMPServerQuery) (opcode : string)
    (env : probe_env) : result string :=
  match udp env opcode with
  | Reply text => Ok text
  | TimedOut =>
      Raise (SAMPQueryException
               ("Query timeout: " +:+ q_host self +:+ ":" +:+ pretty (q_port self)))
  | SocketError detail =>
      Raise (SAMPQueryException ("Query failed: " +:+ detail))
  end.

(** [s.split('\n')]. *)
Fixpoint split_newline (s : string) : list string :=
  match s with
  | EmptyString => [EmptyString]
  | String c rest =>
      if Ascii.eqb c "010"%char then EmptyString :: split_newline rest
      else match split_newline rest with
           | piece :: pieces => String c piece :: pieces
           | [] => [String c EmptyString]
           end
  end.

(** [not response] for a string. *)
Definition is_empty (s : string) : bool :=
  match s with EmptyString => true | _ => false end.

Record server_info : Type := {
  info_host : string;
  info_port : Z;
  info_timestamp : string;
  info_online : bool
}.

Definition get_server_info (self : SAMPServerQuery) (env : probe_env)
  : result (option server_info) :=
  try_except_query
    (response ← _send_query self "serverinfo" env;
     if is_empty response then mret None
     else mret (Some {| info_host := q_host self;
                        info_port := q_port self;
                        info_timestamp := utcnow env;
                        info_online := true |}))
    (fun _ => mret None).

Definition get_player_count (self : SAMPServerQuery) (env : probe_env)
  : result (option Z) :=
  try_except_query
    (response ← _send_query self "players" env;
     if is_empty response then mret None
     else mret (Some (Z.of_nat (length (split_newline response)) - 1)))
    (fun _ => mret None).

Definition ping (self : SAMPServerQuery) (env : probe_env)
  : result (option Z) :=
  try_except_query
    (_ ← _send_query self "ping" env;
     mret (Some (elapsed_ms env)))
    (fun _ => mret None).

(** ** Configuration and snapshots *)

Module ServerConfig.
Record t : Type := {
  name : string;
  host : string;
  port : Z;
  max_players : option Z;
  alert_on_offline : option bool;
  alert_on_high_load : option bool;
  high_load_threshold : option Q
}.
End ServerConfig.

Record Config : Type := {
  discord_webhook : string;
  check_interval : option Z;
  servers : option (list ServerConfig.t)
}.

(** A status dict.  [name], [host], [port] and [timestamp] are set by both
    construction sites of [check_server]; the remaining keys by one of them
    only.  The value stored under ['ping'] may itself be [None]. *)
Module Status.
Record t : Type := {
  name : string;
  host : string;
  port : Z;
  online : option bool;
  ping : option (option Z);
  player_count : option Z;
  max_players : option Z;
  error : option string;
  timestamp : string
}.
End Status.

(** [player_count or 0]. *)
Definition or_zero (v : option Z) : Z :=
  match v with
  | Some n => if n =? 0 then 0 else n
  | None => 0
  end.

(** ** [ServerMonitor.check_server] *)

Definition check_server (server_config : ServerConfig.t) (env : probe_env)
  : result Status.t :=
  let host := ServerConfig.host server_config in
  let port := ServerConfig.port server_config in
  let name := ServerConfig.name server_config in
  try_except_query
    (let query := {| q_host := host; q_port := port; q_timeout := 5 |} in
     ping_ms ← ping query env;
     player_count ← get_player_count query env;
     info ← get_server_info query env;
     mret {| Status.name := name;
             Status.host := host;
             Status.port := port;
             Status.online := Some true;
             Status.ping := Some ping_ms;
             Status.player_count := Some (or_zero player_count);
             Status.max_players :=
               Some (get (ServerConfig.max_players server_config) 100);
             Status.error := None;
             Status.timestamp := utcnow env |})
    (fun e =>
       mret {| Status.name := name;
               Status.host := host;
               Status.port := port;
               Status.online := Some false;
               Status.ping := None;
               Status.player_count := None;
               Status.max_players := None;
               Status.error := Some (str_exn e);
               Status.timestamp := utcnow env |}).

(** ** Alerts and the notifier *)

(** One call of [DiscordNotifier.send_alert], identified by the call site in
    the handler; the arguments are the values interpolated into the title,
    the description and the fields of the embed. *)
Inductive alert : Type :=
| WentOffline (server_name host : string) (port : Z)
| WentOnline (server_name : string)
| HighLoad (server_name : string) (player_count max_players : Z)
           (load threshold : Q).

Inductive alert_kind : Type := KOffline | KOnline | KHighLoad.

Definition kind_of (a : alert) : alert_kind :=
  match a with
  | WentOffline _ _ _ => KOffline
  | WentOnline _ => KOnline
  | HighLoad _ _ _ _ _ => KHighLoad
  end.

Definition title (a : alert) : string :=
  match a with
  | WentOffline server_name _ _ => "⚠️ Server Offline: " +:+ server_name
  | WentOnline server_name => "✅ Server Online: " +:+ server_name
  | HighLoad server_name _ _ _ _ => "⚠️ High Load: " +:+ server_name
  end.

Definition color (a : alert) : Z :=
  match a with
  | WentOffline _ _ _ => 0xFF0000
  | WentOnline _ => 0x00FF00
  | HighLoad _ _ _ _ _ => 0xFFA500
  end.

(** Code that may post alerts and may raise: the alerts posted so far are
    kept when an exception interrupts it. *)
Record action (A : Type) : Type := Act {
  sent : list alert;
  outcome : result A
}.
Arguments Act {A} sent outcome.
Arguments sent {A} _.
Arguments outcome {A} _.

Global Instance action_ret : MRet action := fun A a => Act [] (Ok a).
Global Instance action_bind : MBind action := fun A B f m =>
  match outcome m with
  | Ok a => Act (sent m ++ sent (f a)) (outcome (f a))
  | Raise e => Act (sent m) (Raise e)
  end.

Definition lift {A} (r : result A) : action A := Act [] r.

Record DiscordNotifier : Type := { webhook_url : string }.

(** [send_alert] posts the embed and reports delivery as a boolean, which no
    caller in the monitor inspects; it catches the transport's exceptions. *)
Definition send_alert (self : DiscordNotifier) (a : alert) : action unit :=
  Act [a] (Ok tt).

(** ** [ServerMonitor] *)

Record ServerMonitor : Type := {
  config : Config;
  notifier : DiscordNotifier;
  monitoring : bool;
  server_states : gmap string Status.t
}.

Definition threshold_literal : Q := 0.8.

(** Lines 405-407: the load of the new snapshot. *)
Definition new_load (new_status : Status.t) : result Q :=
  let max_players := get (Status.max_players new_status) 100 in
  let player_count := get (Status.player_count new_status) 0 in
  if 0 <? max_players then truediv player_count max_players else Ok 0%Q.

(** Lines 410-411: the load of the previous snapshot. *)
Definition old_load (old_status : Status.t) : result Q :=
  if 0 <? get (Status.max_players old_status) 100
  then truediv (get (Status.player_count old_status) 0)
               (get (Status.max_players old_status) 100)
  else Ok 0%Q.

Definition handle_server_status_change (self : ServerMonitor)
    (server_name : string) (new_status : Status.t)
    (old_status : option Status.t) : action unit :=
  match old_status with
  | None => mret tt
  | Some old_status =>
      (* server went offline / came back online *)
      _ ← (if get (Status.online old_status) true
              && negb (get (Status.online new_status) false)
           then send_alert (notifier self)
                  (WentOffline server_name (Status.host new_status)
                               (Status.port new_status))
           else if negb (get (Status.online old_status) false)
                   && get (Status.online new_status) true
           then send_alert (notifier self) (WentOnline server_name)
           else mret tt);
      (* player load threshold *)
      if get (Status.online new_status) false then
        let max_players := get (Status.max_players new_status) 100 in
        let player_count := get (Status.player_count new_status) 0 in
        load ← lift (new_load new_status);
        let threshold := threshold_literal in
        old_load ← lift (old_load old_status);
        if Qle_bool threshold load && Qlt_bool old_load threshold
        then send_alert (notifier self)
               (HighLoad server_name player_count max_players load threshold)
        else mret tt
      else mret tt
  end.

(** ** The polling loop *)

Definition set_monitoring (flag : bool) (self : ServerMonitor) : ServerMonitor :=
  {| config := config self;
     notifier := notifier self;
     monitoring := flag;
     server_states := server_states self |}.

Definition set_server_state (server_name : string) (st : Status.t)
    (self : ServerMonitor) : ServerMonitor :=
  {| config := config self;
     notifier := notifier self;
     monitoring := monitoring self;
     server_states := <[server_name := st]> (server_states self) |}.

(** Lines 460-466: the subscripts evaluated for the status log line. *)
Definition log_status (new_status : Status.t) : result unit :=
  online ← subscript "online" (Status.online new_status);
  if online : bool then
    _ ← subscript "player_count" (Status.player_count new_status);
    _ ← subscript "ping" (Status.ping new_status);
    mret tt
  else mret tt.

(** Lines 445-466: the body of the [for] loop for one server.  The monitor
    is returned also when the body raises: an assignment to
    [self.server_states] made before the exception stays. *)
Definition cycle_body (self : ServerMonitor) (server_config : ServerConfig.t)
    (env : probe_env) : ServerMonitor * action unit :=
  let server_name := ServerConfig.name server_config in
  match check_server server_config env with
  | Raise e => (self, Act [] (Raise e))
  | Ok new_status =>
      let old_status := server_states self !! server_name in
      let handled :=
        handle_server_status_change self server_name new_status old_status in
      match outcome handled with
      | Raise e => (self, handled)
      | Ok _ =>
          (set_server_state server_name new_status self,
           Act (sent handled) (log_status new_status))
      end
  end.

(** Where a thread running [monitor_loop] stands. *)
Inductive pc : Type :=
| AtEntry                               (* called, before line 439 *)
| AtWhile                               (* about to test [self.monitoring] *)
| InCycle (todo : list ServerConfig.t)  (* in the [for] loop, servers left *)
| Sleeping (seconds : Z)                (* inside [time.sleep] *)
| Returned.                             (* [monitor_loop] has returned *)

(** What one step of a loop thread did. *)
Record effects : Type := {
  probes : list string;   (* names of the servers [check_server] was run on *)
  alerts : list alert     (* alerts handed to the notifier *)
}.

Definition quiet : effects := {| probes := []; alerts := [] |}.

(** One step of [monitor_loop].  An exception raised inside the [try] is
    caught by [except Exception], which sleeps ten seconds and goes back to
    the loop test; [time.sleep] raises [ValueError] on a negative length. *)
Definition monitor_loop_step (self : ServerMonitor) (at_ : pc)
    (env : probe_env) : ServerMonitor * pc * effects :=
  match at_ with
  | AtEntry => (set_monitoring true self, AtWhile, quiet)
  | AtWhile =>
      if monitoring self
      then (self, InCycle (get (servers (config self)) []), quiet)
      else (self, Returned, quiet)
  | InCycle (server_config :: rest) =>
      let '(self', act) := cycle_body self server_config env in
      let eff := {| probes := [ServerConfig.name server_config];
                    alerts := sent act |} in
      match outcome act with
      | Ok _ => (self', InCycle rest, eff)
      | Raise _ => (self', Sleeping 10, eff)
      end
  | InCycle [] =>
      let check_interval := get (check_interval (config self)) 60 in
      if check_interval <? 0 then (self, Sleeping 10, quiet)
      else (self, Sleeping check_interval, quiet)
  | Sleeping _ => (self, AtWhile, quiet)
  | Returned => (self, Returned, quiet)
  end.

(** The process: the monitor object shared by all threads, the threads
    started on [monitor_loop], and what they have done so far. *)
Record process : Type := {
  monitor : ServerMonitor;
  threads : list pc;
  probed : list string;
  outbox : list alert
}.

(** [start_monitoring]: a new thread on [monitor_loop] is created and
    started, and returned (here: its index).  The [daemon] flag only decides
    whether the thread keeps the interpreter alive at exit. *)
Definition start_monitoring (daemon : bool) (p : process) : process * nat :=
  ({| monitor := monitor p;
      threads := threads p ++ [AtEntry];
      probed := probed p;
      outbox := outbox p |},
   length (threads p)).

Definition stop_monitoring (p : process) : process :=
  {| monitor := set_monitoring false (monitor p);
     threads := threads p;
     probed := probed p;
     outbox := outbox p |}.

(** Thread [i] takes one step; nothing happens if there is no such thread. *)
Definition step_thread (i : nat) (env : probe_env) (p : process) : process :=
  match threads p !! i with
  | None => p
  | Some at_ =>
      let '(self', at', eff) := monitor_loop_step (monitor p) at_ env in
      {| monitor := self';
         threads := <[i := at']> (threads p);
         probed := probed p ++ probes eff;
         outbox := outbox p ++ alerts eff |}
  end.

(** A schedule: which thread steps next, and in which environment. *)
Fixpoint run (schedule : list (nat * probe_env)) (p : process) : process :=
  match schedule with
  | [] => p
  | (i, env) :: rest => run rest (step_thread i env p)
  end.

(** Thread [i] alone takes the steps of [envs]. *)
Definition run_alone (i : nat) (envs : list probe_env) (p : process) : process :=
  run (map (fun env => (i, env)) envs) p.

(** ** Well-formed snapshots *)

(** The two shapes of dict that [check_server] builds: an online snapshot
    carries the counts and no error; an offline one carries the error and
    neither ping nor counts. *)
Definition Snapshot (st : Status.t) : bool :=
  match Status.online st with
  | Some true =>
      bool_decide (is_Some (Status.ping st))
      && bool_decide (is_Some (Status.player_count st))
      && bool_decide (is_Some (Status.max_players st))
      && bool_decide (Status.error st = None)
  | Some false =>
      bool_decide (Status.ping st = None)
      && bool_decide (Status.player_count st = None)
      && bool_decide (Status.max_players st = None)
      && bool_decide (is_Some (Status.error st))
  | None => false
  end.

(** ** Concrete data used in examples *)

(** The server of [_get_default_config]. *)
Definition main_server : ServerConfig.t :=
  {| ServerConfig.name := "Main Server";
     ServerConfig.host := "127.0.0.1";
     ServerConfig.port := 7777;
     ServerConfig.max_players := Some 500;
     ServerConfig.alert_on_offline := Some true;
     ServerConfig.alert_on_high_load := Some true;
     ServerConfig.high_load_threshold := Some 0.8%Q |}.

Definition default_config : Config :=
  {| discord_webhook := "YOUR_WEBHOOK_URL_HERE";
     check_interval := Some 60;
     servers := Some [main_server] |}.

(** A freshly constructed [ServerMonitor] (lines 275-278). *)
Definition fresh_monitor : ServerMonitor :=
  {| config := default_config;
     notifier := {| webhook_url := discord_webhook default_config |};
     monitoring := false;
     server_states := ∅ |}.

(** A peer that answers no datagram. *)
Definition unreachable : probe_env :=
  {| udp := fun _ => TimedOut; elapsed_ms := 5000; utcnow := "2024-01-01T00:00:00" |}.

(** A peer that answers every datagram with [lines] newline-terminated
    lines. *)
Fixpoint lines_text (lines : nat) : string :=
  match lines with
  | O => "x"
  | S n => String "p" (String "010"%char (lines_text n))
  end.

Definition answering (lines : nat) : probe_env :=
  {| udp := fun _ => Reply (lines_text lines);
     elapsed_ms := 12;
     utcnow := "2024-01-01T00:00:00" |}.

(** An online snapshot of the main server with [n] players. *)
Definition online_with (n : Z) : Status.t :=
  {| Status.name := "Main Server";
     Status.host := "127.0.0.1";
     Status.port := 7777;
     Status.online := Some true;
     Status.ping := Some (Some 12);
     Status.player_count := Some n;
     Status.max_players := Some 100;
     Status.error := None;
     Status.timestamp := "2024-01-01T00:00:00" |}.

(** An offline snapshot, as the [except] branch of [check_server] builds
    it. *)
Definition offline_snapshot : Status.t :=
  {| Status.name := "Main Server";
     Status.host := "127.0.0.1";
     Status.port := 7777;
     Status.online := Some false;
     Status.ping := None;
     Status.player_count := None;
     Status.max_players := None;
     Status.error := Some "Query timeout: 127.0.0.1:7777";
     Status.timestamp := "2024-01-01T00:00:00" |}.

(** An online snapshot of a server configured with [max_players = 0]. *)
Definition empty_server : Status.t :=
  {| Status.name := "Main Server";
     Status.host := "127.0.0.1";
     Status.port := 7777;
     Status.online := Some true;
     Status.ping := Some (Some 12);
     Status.player_count := Some 3;
     Status.max_players := Some 0;
     Status.error := None;
     Status.timestamp := "2024-01-01T00:00:00" |}.

(** ** Vocabulary of the statements *)

(** The handler posted an alert of kind [k]. *)
Definition sends (k : alert_kind) (act : action unit) : Prop :=
  exists a, In a (sent act) /\ kind_of a = k.

(** The same monitor over another configuration. *)
Definition with_config (c : Config) (self : ServerMonitor) : ServerMonitor :=
  {| config := c;
     notifier := notifier self;
     monitoring := monitoring self;
     server_states := server_states self |}.

(** The same configuration with every server entry rewritten by [f]. *)
Definition map_servers (f : ServerConfig.t -> ServerConfig.t) (c : Config)
  : Config :=
  {| discord_webhook := discord_webhook c;
     check_interval := check_interval c;
     servers := option_map (map f) (servers c) |}.

Definition set_high_load_threshold (t : option Q) (c : ServerConfig.t)
  : ServerConfig.t :=
  {| ServerConfig.name := ServerConfig.name c;
     ServerConfig.host := ServerConfig.host c;
     ServerConfig.port := ServerConfig.port c;
     ServerConfig.max_players := ServerConfig.max_players c;
     ServerConfig.alert_on_offline := ServerConfig.alert_on_offline c;
     ServerConfig.alert_on_high_load := ServerConfig.alert_on_high_load c;
     ServerConfig.high_load_threshold := t |}.

Definition set_alert_toggles (on_offline on_high_load : option bool)
    (c : ServerConfig.t) : ServerConfig.t :=
  {| ServerConfig.name := ServerConfig.name c;
     ServerConfig.host := ServerConfig.host c;
     ServerConfig.port := ServerConfig.port c;
     ServerConfig.max_players := ServerConfig.max_players c;
     ServerConfig.alert_on_offline := on_offline;
     ServerConfig.alert_on_high_load := on_high_load;
     ServerConfig.high_load_threshold := ServerConfig.high_load_threshold c |}.

(** Every stored snapshot has one of the two shapes of [check_server]. *)
Definition snapshots_only (self : ServerMonitor) : Prop :=
  map_Forall (fun _ st => Snapshot st = true) (server_states self).

(** A thread that is neither inside a cycle nor about to set the flag. *)
Definition resting (at_ : pc) : bool :=
  match at_ with
  | AtWhile | Sleeping _ | Returned => true
  | AtEntry | InCycle _ => false
  end.

(** How many steps of a schedule belong to thread [i]. *)
Fixpoint steps_of (i : nat) (schedule : list (nat * probe_env)) : nat :=
  match schedule with
  | [] => O
  | (j, _) :: rest => if Nat.eqb i j then S (steps_of i rest) else steps_of i rest
  end.

(** The step a resting thread takes once the flag is down. *)
Definition next_at_rest (at_ : pc) : pc :=
  match at_ with
  | Sleeping _ => AtWhile
  | _ => Returned
  end.

(** Steps a resting thread still takes before it has returned, once the
    flag is down. *)
Definition remaining (slot : option pc) : nat :=
  match slot with
  | Some (Sleeping _) => 2
  | Some AtWhile => 1
  | _ => 0
  end.

(** A process in which nothing has been started yet. *)
Definition idle_process : process :=
  {| monitor := fresh_monitor; threads := []; probed := []; outbox := [] |}.

(** A process whose single loop thread is in its inter-cycle sleep. *)
Definition sleeping_process : process :=
  {| monitor := set_monitoring true fresh_monitor;
     threads := [Sleeping 60];
     probed := ["Main Server"];
     outbox := [] |}.

(** ** Text of a reply *)

(** [s.count('\n')]. *)
Fixpoint count_newlines (s : string) : nat :=
  match s with
  | EmptyString => O
  | String c rest =>
      if Ascii.eqb c "010"%char then S (count_newlines rest)
      else count_newlines rest
  end.

(** ['\n'.join(pieces)]. *)
Fixpoint join_newline (pieces : list string) : string :=
  match pieces with
  | [] => EmptyString
  | [piece] => piece
  | piece :: rest => piece +:+ String "010"%char (join_newline rest)
  end.

(** What the three queries of one probe contribute to the snapshot. *)
Definition ping_of (env : probe_env) : option Z :=
  match udp env "ping" with
  | Reply _ => Some (elapsed_ms env)
  | _ => None
  end.

Definition players_of (env : probe_env) : Z :=
  match udp env "players" with
  | Reply text => Z.of_nat (count_newlines text)
  | _ => 0
  end.

(** The snapshot built from the configuration entry and the three replies. *)
Definition snapshot_of (server_config : ServerConfig.t) (env : probe_env)
  : Status.t :=
  {| Status.name := ServerConfig.name server_config;
     Status.host := ServerConfig.host server_config;
     Status.port := ServerConfig.port server_config;
     Status.online := Some true;
     Status.ping := Some (ping_of env);
     Status.player_count := Some (players_of env);
     Status.max_players :=
       Some (get (ServerConfig.max_players server_config) 100);
     Status.error := None;
     Status.timestamp := utcnow env |}.

(** Every stored snapshot is an online one. *)
Definition all_online (self : ServerMonitor) : Prop :=
  map_Forall (fun _ st => Status.online st = Some true) (server_states self).

(** ** The status report *)

Record status_report : Type := {
  report_timestamp : string;
  report_servers : gmap string Status.t
}.

(** [get_status_report]; [now] is [datetime.utcnow().isoformat()]. *)
Definition get_status_report (self : ServerMonitor) (now : string)
  : status_report :=
  {| report_timestamp := now; report_servers := server_states self |}.

(** ** [DiscordNotifier], with the embed and the transport *)

Module Webhook.

Record field : Type := {
  field_name : string;
  field_value : string;
  field_inline : bool
}.

(** The embed dict; ["fields"] is a key that may be missing. *)
Record embed : Type := {
  embed_title : string;
  embed_description : string;
  embed_color : Z;
  embed_timestamp : string;
  embed_footer : string;
  embed_fields : option (list field)
}.

(** What [requests.post] does with a request. *)
Inductive post_outcome : Type :=
| Responded (status_code : Z)
| RequestException (detail : string).

(** The environment of one call: the outcome of posting the embeds of a
    payload to a URL, and the clock. *)
Record transport : Type := {
  post : string -> list embed -> post_outcome;
  utcnow_iso : string
}.

(** What a call did: the embeds of the payload it handed to
    [requests.post], and the flag it returned. *)
Record delivery : Type := {
  posted : list embed;
  delivered : bool
}.

(** Lines 183-194: the embed; [if fields:] skips [None] and the empty
    list. *)
Definition build_embed (title_ description : string) (color_ : Z)
    (fields : option (list field)) (env : transport) : embed :=
  {| embed_title := title_;
     embed_description := description;
     embed_color := color_;
     embed_timestamp := utcnow_iso env +:+ "Z";
     embed_footer := "SA-MP Server Monitor";
     embed_fields := match fields with
                     | Some (f :: fs) => Some (f :: fs)
                     | _ => None
                     end |}.

Definition send_alert (self : DiscordNotifier) (title_ description : string)
    (color_ : Z) (fields : option (list field)) (env : transport) : delivery :=
  let payload := [build_embed title_ description color_ fields env] in
  match post env (webhook_url self) payload with
  | Responded status_code =>
      if (status_code =? 200) || (status_code =? 204)
      then {| posted := payload; delivered := true |}
      else {| posted := payload; delivered := false |}
  | RequestException _ => {| posted := payload; delivered := false |}
  end.

Definition send_status_update (self : DiscordNotifier)
    (server_name status : string) (player_count max_players : Z)
    (ping_ms : option Z) (env : transport) : delivery :=
  let color_ := if String.eqb status "Online" then 0x00FF00 else 0xFF0000 in
  let fields :=
    [ {| field_name := "Status"; field_value := status; field_inline := true |};
      {| field_name := "Players";
         field_value := pretty player_count +:+ "/" +:+ pretty max_players;
         field_inline := true |} ]
    ++ match ping_ms with
       | Some ms => [ {| field_name := "Ping";
                         field_value := pretty ms +:+ "ms";
                         field_inline := true |} ]
       | None => []
       end in
  send_alert self ("SA-MP Server: " +:+ server_name) "Server Status Update"
    color_ (Some fields) env.

End Webhook.

(** ** Construction of the monitor *)






(** * Properties *)

(** ** The query client never lets a query failure out *)

Section QueryClient.
Variable self : SAMPServerQuery.
Variable env : probe_env.

Lemma _send_query_raises_only_query_exception opcode e :
  _send_query self opcode env = Raise e -> exists msg, e = SAMPQueryException msg.
Proof.
  unfold _send_query. destruct (udp env opcode); intros H; inversion H; eauto.
Qed.

Lemma ping_returns : exists r, ping self env = Ok r.
Proof.
  unfold ping, _send_query.
  destruct (udp env "ping"); cbn; eauto.
Qed.

Lemma ping_none_on_failure :
  (forall text, udp env "ping" <> Reply text) -> ping self env = Ok None.
Proof.
  unfold ping, _send_query.
  destruct (udp env "ping") as [text| |]; cbn; auto.
  intros H. destruct (H text eq_refl).
Qed.

Lemma get_player_count_returns : exists r, get_player_count self env = Ok r.
Proof.
  unfold get_player_count, _send_query.
  destruct (udp env "players") as [text| |]; cbn; eauto.
  destruct (is_empty text); cbn; eauto.
Qed.

Lemma get_server_info_returns : exists r, get_server_info self env = Ok r.
Proof.
  unfold get_server_info, _send_query.
  destruct (udp env "serverinfo") as [text| |]; cbn; eauto.
  destruct (is_empty text); cbn; eauto.
Qed.
End QueryClient.

(** ** [check_server] *)

(** No outcome of the three queries makes [check_server] take its [except]
    branch: every snapshot it returns is online and carries no error. *)
Lemma check_server_always_online server_config env :
  exists st, check_server server_config env = Ok st
             /\ Status.online st = Some true
             /\ Status.error st = None.
Proof.
  unfold check_server.
  set (query := {| q_host := _; q_port := _; q_timeout := _ |}).
  destruct (ping_returns query env) as [p ->].
  destruct (get_player_count_returns query env) as [c ->].
  destruct (get_server_info_returns query env) as [i ->].
  cbn. eauto.
Qed.

Lemma check_server_Snapshot server_config env st :
  check_server server_config env = Ok st -> Snapshot st = true.
Proof.
  unfold check_server.
  set (query := {| q_host := _; q_port := _; q_timeout := _ |}).
  destruct (ping_returns query env) as [p ->].
  destruct (get_player_count_returns query env) as [c ->].
  destruct (get_server_info_returns query env) as [i ->].
  cbn. intros [= <-]. reflexivity.
Qed.

(** C1 (evaluation at the failing input): with all three queries timing
    out, [check_server] on the default server returns an online snapshot,
    with no ping, zero players and no error recorded; the claim asks for
    [online = false] and the error. *)
Theorem check_server_unreachable_reports_online :
  check_server main_server unreachable
  = Ok {| Status.name := "Main Server";
          Status.host := "127.0.0.1";
          Status.port := 7777;
          Status.online := Some true;
          Status.ping := Some None;
          Status.player_count := Some 0;
          Status.max_players := Some 500;
          Status.error := None;
          Status.timestamp := "2024-01-01T00:00:00" |}.
Proof. reflexivity. Qed.

(** ** The load computations *)

Lemma guarded_truediv a b :
  exists q, (if 0 <? b then truediv a b else Ok 0%Q) = Ok q
            /\ (b <= 0 -> q = 0%Q)
            /\ (0 < b -> q = (inject_Z a / inject_Z b)%Q).
Proof.
  unfold truediv. destruct (0 <? b) eqn:Hpos.
  - apply Z.ltb_lt in Hpos.
    destruct (b =? 0) eqn:Hz; [apply Z.eqb_eq in Hz; lia|].
    eexists; split; [reflexivity|]. split; [lia|reflexivity].
  - apply Z.ltb_ge in Hpos.
    eexists; split; [reflexivity|]. split; [reflexivity|lia].
Qed.

Lemma new_load_returns new_status :
  exists q, new_load new_status = Ok q
            /\ (Status.max_players new_status = Some 0 -> q = 0%Q).
Proof.
  unfold new_load.
  destruct (guarded_truediv (get (Status.player_count new_status) 0)
                            (get (Status.max_players new_status) 100))
    as (q & -> & Hzero & _).
  exists q; split; [reflexivity|].
  intros H. apply Hzero. rewrite H. cbn. lia.
Qed.

Lemma old_load_returns old_status :
  exists q, old_load old_status = Ok q
            /\ (Status.max_players old_status = Some 0 -> q = 0%Q).
Proof.
  unfold old_load.
  destruct (guarded_truediv (get (Status.player_count old_status) 0)
                            (get (Status.max_players old_status) 100))
    as (q & -> & Hzero & _).
  exists q; split; [reflexivity|].
  intros H. apply Hzero. rewrite H. cbn. lia.
Qed.

(** An offline snapshot has no counts, so its load is [0 / 100]. *)
Lemma old_load_offline old_status :
  Snapshot old_status = true ->
  Status.online old_status = Some false ->
  old_load old_status = Ok (inject_Z 0 / inject_Z 100)%Q.
Proof.
  unfold Snapshot, old_load. intros Hwf Hoff. rewrite Hoff in Hwf.
  repeat (apply andb_prop in Hwf as [Hwf ?]).
  repeat match goal with
         | H : bool_decide _ = true |- _ => apply bool_decide_eq_true in H
         end.
  replace (Status.player_count old_status) with (@None Z) by congruence.
  replace (Status.max_players old_status) with (@None Z) by congruence.
  reflexivity.
Qed.

(** A snapshot with a positive load is an online one. *)
Lemma positive_old_load_online old_status q :
  Snapshot old_status = true ->
  old_load old_status = Ok q ->
  (0 < q)%Q ->
  Status.online old_status = Some true.
Proof.
  intros Hwf Hq Hpos. unfold Snapshot in Hwf.
  destruct (Status.online old_status) as [[|]|] eqn:Hon; try discriminate; auto.
  rewrite (old_load_offline old_status) in Hq.
  - injection Hq as <-. exfalso. revert Hpos. apply Qle_not_lt.
    unfold Qle; cbn; lia.
  - unfold Snapshot. rewrite Hon. exact Hwf.
  - exact Hon.
Qed.

(** ** The transition handler *)

(** The handler as the list of alerts of its two parts, for an [old_status]
    that is present and loads [load], [old_ld]. *)
Lemma handle_server_status_change_unfold self server_name new_status old_status
      load old_ld :
  new_load new_status = Ok load ->
  old_load old_status = Ok old_ld ->
  handle_server_status_change self server_name new_status (Some old_status)
  = Act
      ((if get (Status.online old_status) true
           && negb (get (Status.online new_status) false)
        then [WentOffline server_name (Status.host new_status)
                          (Status.port new_status)]
        else if negb (get (Status.online old_status) false)
                && get (Status.online new_status) true
        then [WentOnline server_name]
        else [])
       ++
       (if get (Status.online new_status) false
           && (Qle_bool threshold_literal load
               && Qlt_bool old_ld threshold_literal)
        then [HighLoad server_name
                       (get (Status.player_count new_status) 0)
                       (get (Status.max_players new_status) 100)
                       load threshold_literal]
        else []))
      (Ok tt).
Proof.
  intros Hnew Hold. unfold handle_server_status_change.
  rewrite Hnew, Hold.
  destruct (get (Status.online old_status) true);
    destruct (get (Status.online old_status) false);
    destruct (get (Status.online new_status) false);
    destruct (get (Status.online new_status) true);
    cbn;
    destruct (Qle_bool threshold_literal load);
    destruct (Qlt_bool old_ld threshold_literal);
    reflexivity.
Qed.

Lemma Qlt_bool_iff x y : Qlt_bool x y = true <-> (x < y)%Q.
Proof.
  unfold Qlt_bool. rewrite negb_true_iff.
  split.
  - intros H. apply Qnot_le_lt. intros Hle.
    apply Qle_bool_iff in Hle. congruence.
  - intros H. destruct (Qle_bool y x) eqn:E; [|reflexivity].
    apply Qle_bool_iff in E. exfalso. exact (Qlt_not_le _ _ H E).
Qed.

Lemma Qle_bool_false_iff x y : Qle_bool x y = false <-> (y < x)%Q.
Proof.
  rewrite <- Qlt_bool_iff. unfold Qlt_bool.
  destruct (Qle_bool x y); cbn; split; congruence.
Qed.

(** Name the two loads of a call with a present [old_status] and put the
    call into the form of [handle_server_status_change_unfold]. *)
Ltac handler_form new_status old_status l ol Hl Hol :=
  destruct (new_load_returns new_status) as (l & Hl & _);
  destruct (old_load_returns old_status) as (ol & Hol & _);
  rewrite (handle_server_status_change_unfold _ _ _ _ _ _ Hl Hol).

(** The handler never raises, whatever the snapshots. *)
Lemma handle_server_status_change_returns self server_name new_status old_status :
  outcome (handle_server_status_change self server_name new_status old_status)
  = Ok tt.
Proof.
  destruct old_status as [old_status|]; [|reflexivity].
  handler_form new_status old_status l ol Hl Hol.
  reflexivity.
Qed.

(** A high-load alert among the posted ones is the one of the load rule,
    and the rule's three tests held. *)
Lemma high_load_alert_inversion self server_name new_status old_status
      load old_ld a :
  new_load new_status = Ok load ->
  old_load old_status = Ok old_ld ->
  In a (sent (handle_server_status_change self server_name new_status
                (Some old_status))) ->
  kind_of a = KHighLoad ->
  a = HighLoad server_name
               (get (Status.player_count new_status) 0)
               (get (Status.max_players new_status) 100)
               load threshold_literal
  /\ get (Status.online new_status) false = true
  /\ Qle_bool threshold_literal load = true
  /\ Qlt_bool old_ld threshold_literal = true.
Proof.
  intros Hl Hol.
  rewrite (handle_server_status_change_unfold _ _ _ _ _ _ Hl Hol).
  cbn [sent]. intros Hin Hkind.
  apply in_app_or in Hin as [Hin|Hin].
  - exfalso. destruct (_ && _) in Hin.
    + destruct Hin as [<-|[]]; discriminate.
    + destruct (_ && _) in Hin; [destruct Hin as [<-|[]]; discriminate|].
      destruct Hin.
  - destruct (get (Status.online new_status) false); [|destruct Hin].
    destruct (Qle_bool threshold_literal load); [|destruct Hin].
    destruct (Qlt_bool old_ld threshold_literal); [|destruct Hin].
    destruct Hin as [<-|[]]. auto.
Qed.

(** When the new snapshot is online, whether a high-load alert is posted is
    decided by the two comparisons with 0.8 alone. *)
Lemma high_load_sent_iff self server_name new_status old_status load old_ld :
  new_load new_status = Ok load ->
  old_load old_status = Ok old_ld ->
  sends KHighLoad
    (handle_server_status_change self server_name new_status (Some old_status))
  <-> get (Status.online new_status) false = true
      /\ (0.8 <= load)%Q /\ (old_ld < 0.8)%Q.
Proof.
  intros Hl Hol.
  rewrite <- Qle_bool_iff, <- Qlt_bool_iff. fold threshold_literal.
  split.
  - intros (a & Hin & Hkind).
    apply (high_load_alert_inversion _ _ _ _ _ _ _ Hl Hol Hin Hkind).
  - intros (Hon & Hle & Hlt).
    rewrite (handle_server_status_change_unfold _ _ _ _ _ _ Hl Hol).
    rewrite Hon, Hle, Hlt. cbn [andb].
    eexists. split; [apply in_or_app; right; left; reflexivity|reflexivity].
Qed.

(** C6: with no previous snapshot the handler returns at once and posts
    nothing: no WentOffline, no WentOnline, no HighLoad alert. *)
Theorem no_alert_without_old_status self server_name new_status :
  handle_server_status_change self server_name new_status None = Act [] (Ok tt).
Proof. reflexivity. Qed.

(** C4: when the previous snapshot is online and the new one is offline, the
    handler posts exactly one alert, the WentOffline one, whatever the
    player counts and capacities of the two snapshots. *)
Theorem offline_transition_posts_one_alert self server_name new_status old_status :
  Status.online old_status = Some true ->
  Status.online new_status = Some false ->
  handle_server_status_change self server_name new_status (Some old_status)
  = Act [WentOffline server_name (Status.host new_status)
                     (Status.port new_status)]
        (Ok tt).
Proof.
  intros Hold Hnew.
  handler_form new_status old_status l ol Hl Hol.
  rewrite Hold, Hnew. reflexivity.
Qed.

Lemma offline_transition_posts_one_alert_witness :
  handle_server_status_change fresh_monitor "Main Server" offline_snapshot
    (Some (online_with 95))
  = Act [WentOffline "Main Server" "127.0.0.1" 7777] (Ok tt).
Proof.
  apply (offline_transition_posts_one_alert fresh_monitor "Main Server"
           offline_snapshot (online_with 95)); reflexivity.
Defined.

(** C7: both load computations are total and give 0 for a snapshot whose
    [max_players] is 0, and the handler never ends in an exception (so in
    particular not in [ZeroDivisionError]), with or without a previous
    snapshot. *)
Theorem load_division_is_guarded self server_name new_status old_status :
  (exists load, new_load new_status = Ok load
                /\ (Status.max_players new_status = Some 0 -> load = 0%Q))
  /\ (exists old_ld, old_load old_status = Ok old_ld
                     /\ (Status.max_players old_status = Some 0 -> old_ld = 0%Q))
  /\ outcome (handle_server_status_change self server_name new_status
                (Some old_status)) = Ok tt
  /\ outcome (handle_server_status_change self server_name new_status None)
     = Ok tt.
Proof.
  split; [apply new_load_returns|].
  split; [apply old_load_returns|].
  split; apply handle_server_status_change_returns.
Qed.

Lemma load_division_is_guarded_witness :
  new_load empty_server = Ok 0%Q
  /\ old_load empty_server = Ok 0%Q
  /\ outcome (handle_server_status_change fresh_monitor "Main Server"
                empty_server (Some empty_server)) = Ok tt.
Proof.
  destruct (load_division_is_guarded fresh_monitor "Main Server"
              empty_server empty_server)
    as ((l & Hl & Hl0) & (ol & Hol & Hol0) & Hret & _).
  rewrite Hl, Hol, (Hl0 eq_refl), (Hol0 eq_refl).
  split; [reflexivity|]. split; [reflexivity|exact Hret].
Defined.

(** C3: with the new snapshot online, a HighLoad alert is posted exactly
    when the new load is at least 0.8 and the old load is below 0.8.  When
    the load of a (well-formed) old snapshot is at or above 0.8 and the new
    load is below it, nothing at all is posted; this holds in particular for
    an old load of 0.9 and a new load of 0.5. *)
Theorem high_load_alert_is_rising_edge_only self server_name new_status old_status :
  Status.online new_status = Some true ->
  exists load old_ld,
    new_load new_status = Ok load
    /\ old_load old_status = Ok old_ld
    /\ (sends KHighLoad
          (handle_server_status_change self server_name new_status
             (Some old_status))
        <-> (0.8 <= load)%Q /\ (old_ld < 0.8)%Q)
    /\ (Snapshot old_status = true ->
        (0.8 <= old_ld)%Q -> (load < 0.8)%Q ->
        sent (handle_server_status_change self server_name new_status
                (Some old_status)) = [])
    /\ (Snapshot old_status = true ->
        (old_ld == 0.9)%Q -> (load == 0.5)%Q ->
        sent (handle_server_status_change self server_name new_status
                (Some old_status)) = []).
Proof.
  intros Hnew.
  destruct (new_load_returns new_status) as (l & Hl & _).
  destruct (old_load_returns old_status) as (ol & Hol & _).
  exists l, ol. split; [exact Hl|]. split; [exact Hol|].
  assert (Hdecross : Snapshot old_status = true ->
                     (0.8 <= ol)%Q -> (l < 0.8)%Q ->
                     sent (handle_server_status_change self server_name
                             new_status (Some old_status)) = []).
  { intros Hwf Hhigh Hlow.
    assert (Hon : Status.online old_status = Some true).
    { apply (positive_old_load_online old_status ol Hwf Hol).
      eapply Qlt_le_trans; [|exact Hhigh]. reflexivity. }
    rewrite (handle_server_status_change_unfold _ _ _ _ _ _ Hl Hol).
    rewrite Hon, Hnew. cbn.
    apply Qle_bool_false_iff in Hlow. unfold threshold_literal.
    rewrite Hlow. reflexivity. }
  split; [|split].
  - rewrite (high_load_sent_iff _ _ _ _ _ _ Hl Hol), Hnew. cbn.
    split; [intros (_ & H); exact H | intros H; split; [reflexivity|exact H]].
  - exact Hdecross.
  - intros Hwf H9 H5. apply Hdecross; [exact Hwf| |].
    + rewrite H9. unfold Qle; cbn; lia.
    + rewrite H5. reflexivity.
Qed.

Lemma high_load_alert_is_rising_edge_only_witness :
  Status.online (online_with 50) = Some true
  /\ sent (handle_server_status_change fresh_monitor "Main Server"
             (online_with 50) (Some (online_with 90))) = [].
Proof.
  split; [reflexivity|].
  destruct (high_load_alert_is_rising_edge_only fresh_monitor "Main Server"
              (online_with 50) (online_with 90) eq_refl)
    as (l & ol & Hl & Hol & _ & _ & Hcase).
  injection Hl as <-. injection Hol as <-.
  apply Hcase; reflexivity.
Defined.

(** C5: the rules fire independently and an offline previous snapshot has
    load 0: when the previous snapshot is offline and the new one is online
    with a load of at least 0.8, the same call posts the WentOnline alert and
    then the HighLoad alert. *)
Theorem reconnect_under_load_posts_both self server_name new_status old_status load :
  Snapshot old_status = true ->
  Status.online old_status = Some false ->
  Status.online new_status = Some true ->
  new_load new_status = Ok load ->
  (0.8 <= load)%Q ->
  handle_server_status_change self server_name new_status (Some old_status)
  = Act [WentOnline server_name;
         HighLoad server_name
                  (get (Status.player_count new_status) 0)
                  (get (Status.max_players new_status) 100)
                  load 0.8]
        (Ok tt).
Proof.
  intros Hwf Hold Hnew Hl Hhigh.
  pose proof (old_load_offline old_status Hwf Hold) as Hol.
  rewrite (handle_server_status_change_unfold _ _ _ _ _ _ Hl Hol).
  rewrite Hold, Hnew. cbn [get default andb negb].
  apply Qle_bool_iff in Hhigh. unfold threshold_literal. rewrite Hhigh.
  reflexivity.
Qed.

Lemma reconnect_under_load_posts_both_witness :
  handle_server_status_change fresh_monitor "Main Server" (online_with 90)
    (Some offline_snapshot)
  = Act [WentOnline "Main Server";
         HighLoad "Main Server" 90 100 (inject_Z 90 / inject_Z 100) 0.8]
        (Ok tt).
Proof.
  apply (reconnect_under_load_posts_both fresh_monitor "Main Server"
           (online_with 90) offline_snapshot (inject_Z 90 / inject_Z 100));
    try reflexivity.
  unfold Qle; cbn; lia.
Defined.

(** The handler reads nothing of the monitor object but its notifier. *)
Lemma handle_server_status_change_ignores_config self c server_name
      new_status old_status :
  handle_server_status_change (with_config c self) server_name new_status
    old_status
  = handle_server_status_change self server_name new_status old_status.
Proof. reflexivity. Qed.

(** C2: the high-load comparison uses the constant 0.8 whatever
    [high_load_threshold] the servers are configured with: rewriting the
    configured thresholds leaves the handler's result unchanged, a HighLoad
    alert is posted exactly when the new snapshot is online, its load is at
    least 0.8 and the old load is below 0.8, and the threshold the alert
    reports is 0.8. *)
Theorem high_load_threshold_is_fixed (t : ServerConfig.t -> option Q)
    self server_name new_status old_status :
  let self' :=
    with_config
      (map_servers (fun c => set_high_load_threshold (t c) c) (config self))
      self in
  handle_server_status_change self' server_name new_status (Some old_status)
  = handle_server_status_change self server_name new_status (Some old_status)
  /\ exists load old_ld,
      new_load new_status = Ok load
      /\ old_load old_status = Ok old_ld
      /\ (sends KHighLoad
            (handle_server_status_change self' server_name new_status
               (Some old_status))
          <-> get (Status.online new_status) false = true
              /\ (0.8 <= load)%Q /\ (old_ld < 0.8)%Q)
      /\ (forall a,
            In a (sent (handle_server_status_change self' server_name
                          new_status (Some old_status))) ->
            kind_of a = KHighLoad ->
            a = HighLoad server_name
                         (get (Status.player_count new_status) 0)
                         (get (Status.max_players new_status) 100)
                         load 0.8).
Proof.
  intros self'. split; [reflexivity|].
  destruct (new_load_returns new_status) as (l & Hl & _).
  destruct (old_load_returns old_status) as (ol & Hol & _).
  exists l, ol. split; [exact Hl|]. split; [exact Hol|].
  split; [apply (high_load_sent_iff _ _ _ _ _ _ Hl Hol)|].
  intros a Hin Hkind.
  apply (high_load_alert_inversion _ _ _ _ _ _ _ Hl Hol Hin Hkind).
Qed.

Lemma high_load_threshold_is_fixed_witness :
  sends KHighLoad
    (handle_server_status_change
       (with_config
          (map_servers (fun c => set_high_load_threshold (Some 0.95%Q) c)
                       default_config)
          fresh_monitor)
       "Main Server" (online_with 85) (Some (online_with 50))).
Proof.
  destruct (high_load_threshold_is_fixed (fun _ => Some 0.95%Q) fresh_monitor
              "Main Server" (online_with 85) (online_with 50))
    as (_ & l & ol & Hl & Hol & Hiff & _).
  apply Hiff. injection Hl as <-. injection Hol as <-.
  split; [reflexivity|]. split; [unfold Qle; cbn; lia|reflexivity].
Defined.

(** C10: the toggles [alert_on_offline] and [alert_on_high_load] are never
    read: rewriting them in every server entry changes neither the alerts
    the handler posts for given snapshots, nor the alerts and the stored
    snapshot produced by one pass of the loop body for a server. *)
Theorem alert_toggles_are_ignored (on_offline on_high_load : ServerConfig.t -> option bool)
    self server_name new_status old_status server_config env :
  let retoggle c := set_alert_toggles (on_offline c) (on_high_load c) c in
  let self' := with_config (map_servers retoggle (config self)) self in
  handle_server_status_change self' server_name new_status old_status
  = handle_server_status_change self server_name new_status old_status
  /\ snd (cycle_body self' (retoggle server_config) env)
     = snd (cycle_body self server_config env)
  /\ server_states (fst (cycle_body self' (retoggle server_config) env))
     = server_states (fst (cycle_body self server_config env)).
Proof.
  intros retoggle self'. split; [reflexivity|].
  unfold cycle_body.
  change (check_server (retoggle server_config) env)
    with (check_server server_config env).
  change (ServerConfig.name (retoggle server_config))
    with (ServerConfig.name server_config).
  destruct (check_server server_config env) as [new|e]; [|split; reflexivity].
  change (server_states self') with (server_states self).
  unfold self'. rewrite (handle_server_status_change_ignores_config self).
  destruct (outcome _); split; reflexivity.
Qed.

(** ** Starting and stopping the loop *)

Lemma lookup_new_thread (ts : list pc) (at_ : pc) :
  (ts ++ [at_]) !! length ts = Some at_.
Proof. induction ts as [|t ts IH]; [reflexivity|exact IH]. Qed.

(** C8 (as the code has it): [start_monitoring] has no guard.  Whatever the
    state of the process, also with the flag up and other loop threads
    running, a call adds one thread, leaves the existing ones as they are,
    and the new thread sets the flag and enters a cycle over the configured
    servers with its first two steps. *)
Theorem start_monitoring_always_spawns daemon p env1 env2 :
  let p' := fst (start_monitoring daemon p) in
  let i := snd (start_monitoring daemon p) in
  length (threads p') = S (length (threads p))
  /\ (forall j at_, threads p !! j = Some at_ -> threads p' !! j = Some at_)
  /\ threads p' !! i = Some AtEntry
  /\ threads (run_alone i [env1; env2] p') !! i
     = Some (InCycle (get (servers (config (monitor p))) [])).
Proof.
  cbn [start_monitoring fst snd]. repeat split.
  - cbn [threads]. rewrite length_app. cbn. lia.
  - intros j at_ H. cbn [threads]. apply lookup_app_l_Some. exact H.
  - cbn [threads]. apply lookup_new_thread.
  - unfold run_alone. cbn [map run].
    unfold step_thread at 2. cbn [threads monitor].
    rewrite lookup_new_thread. cbn [monitor_loop_step].
    unfold step_thread. cbn [threads monitor probed outbox probes alerts quiet].
    rewrite list_lookup_insert_eq
      by (rewrite length_app; cbn; lia).
    cbn. rewrite list_lookup_insert_eq; [reflexivity|].
    rewrite length_insert, length_app. cbn. lia.
Qed.

(** C8 (counterexample): in the default process, after a first
    [start_monitoring] whose thread has set the flag, a second call is not a
    no-op, and a schedule exists after which both threads stand inside a
    cycle and both have probed the server. *)
Lemma start_monitoring_twice_runs_two_loops :
  let env := answering 3 in
  let running := step_thread 0 env (fst (start_monitoring false idle_process)) in
  let again := fst (start_monitoring false running) in
  monitoring (monitor running) = true
  /\ again <> running
  /\ threads (run [(0%nat, env); (1%nat, env); (1%nat, env)] again)
     = [InCycle [main_server]; InCycle [main_server]]
  /\ probed (run [(0%nat, env); (1%nat, env); (1%nat, env);
                  (0%nat, env); (1%nat, env)] again)
     = ["Main Server"; "Main Server"].
Proof.
  cbv zeta. split; [reflexivity|]. split.
  - intros H. apply (f_equal threads) in H. discriminate H.
  - split; reflexivity.
Qed.

(** ** Stopping *)

Lemma resting_step self at_ env :
  monitoring self = false ->
  resting at_ = true ->
  monitor_loop_step self at_ env = (self, next_at_rest at_, quiet).
Proof.
  intros Hflag Hrest. destruct at_; try discriminate; cbn.
  - rewrite Hflag. reflexivity.
  - reflexivity.
  - reflexivity.
Qed.

Lemma resting_next at_ : resting at_ = true -> resting (next_at_rest at_) = true.
Proof. destruct at_; intros H; try discriminate; reflexivity. Qed.

Lemma remaining_next at_ :
  resting at_ = true ->
  remaining (Some (next_at_rest at_)) = Nat.pred (remaining (Some at_)).
Proof. destruct at_; intros H; try discriminate; reflexivity. Qed.

(** With the flag down and every thread at rest, a step of any thread
    probes nothing, posts nothing, leaves the monitor as it is, and moves
    only the stepping thread, one step towards its return. *)
Lemma step_thread_at_rest j env p :
  monitoring (monitor p) = false ->
  Forall (fun t => resting t = true) (threads p) ->
  let p' := step_thread j env p in
  monitor p' = monitor p
  /\ probed p' = probed p
  /\ outbox p' = outbox p
  /\ length (threads p') = length (threads p)
  /\ Forall (fun t => resting t = true) (threads p')
  /\ forall i, remaining (threads p' !! i)
               = if Nat.eqb i j then Nat.pred (remaining (threads p !! i))
                 else remaining (threads p !! i).
Proof.
  intros Hflag Hrest. unfold step_thread.
  destruct (threads p !! j) as [at_|] eqn:Hj.
  - assert (Hat : resting at_ = true)
      by (eapply (proj1 (Forall_lookup _ _) Hrest); exact Hj).
    rewrite (resting_step _ _ env Hflag Hat). cbn.
    rewrite !app_nil_r. repeat split.
    + apply length_insert.
    + apply Forall_insert; [exact Hrest|apply resting_next; exact Hat].
    + intros i. destruct (Nat.eqb_spec i j) as [->|Hne].
      * rewrite list_lookup_insert_eq by (eapply lookup_lt_Some; exact Hj).
        rewrite Hj. apply remaining_next. exact Hat.
      * rewrite list_lookup_insert_ne by congruence. reflexivity.
  - cbv zeta. repeat split; try exact Hrest.
    intros i. destruct (Nat.eqb_spec i j) as [->|Hne]; [|reflexivity].
    rewrite Hj. reflexivity.
Qed.

Lemma run_at_rest schedule : forall p,
  monitoring (monitor p) = false ->
  Forall (fun t => resting t = true) (threads p) ->
  let p' := run schedule p in
  monitor p' = monitor p
  /\ probed p' = probed p
  /\ outbox p' = outbox p
  /\ length (threads p') = length (threads p)
  /\ Forall (fun t => resting t = true) (threads p')
  /\ forall i, remaining (threads p' !! i)
               = (remaining (threads p !! i) - steps_of i schedule)%nat.
Proof.
  induction schedule as [|[j env] rest IH]; intros p Hflag Hrest.
  - cbn. repeat split; try assumption. intros i. lia.
  - destruct (step_thread_at_rest j env p Hflag Hrest)
      as (Hm & Hp & Ho & Hlen & Hr & Hrem).
    cbn [run]. cbv zeta.
    destruct (IH (step_thread j env p)) as (Hm' & Hp' & Ho' & Hlen' & Hr' & Hrem');
      [rewrite Hm; exact Hflag|exact Hr|].
    repeat split; try congruence.
    intros i. rewrite Hrem', Hrem. cbn [steps_of].
    destruct (Nat.eqb i j); lia.
Qed.

(** C9: when [stop_monitoring] is called while the loop thread is in its
    sleep (and no other thread is inside a cycle or being started), then
    under every later schedule no server is probed, no alert is posted and
    the stored snapshots stay as they are; the thread is always asleep, at
    the loop test or returned, and once it has taken two steps (waking up,
    testing the flag) it has returned from [monitor_loop]. *)
Theorem stop_during_sleep_exits_before_next_cycle p i seconds schedule :
  threads p !! i = Some (Sleeping seconds) ->
  Forall (fun t => resting t = true) (threads p) ->
  let p' := run schedule (stop_monitoring p) in
  probed p' = probed p
  /\ outbox p' = outbox p
  /\ server_states (monitor p') = server_states (monitor p)
  /\ (exists at_, threads p' !! i = Some at_ /\ resting at_ = true)
  /\ ((2 <= steps_of i schedule)%nat -> threads p' !! i = Some Returned).
Proof.
  intros Hi Hrest.
  destruct (run_at_rest schedule (stop_monitoring p))
    as (Hm & Hp & Ho & Hlen & Hr & Hrem); [reflexivity|exact Hrest|].
  cbv zeta.
  assert (Hex : exists at_, threads (run schedule (stop_monitoring p)) !! i
                            = Some at_ /\ resting at_ = true).
  { destruct (lookup_lt_is_Some_2 (threads (run schedule (stop_monitoring p))) i)
      as [at_ Hat].
    - rewrite Hlen. eapply lookup_lt_Some. exact Hi.
    - exists at_. split; [exact Hat|].
      eapply (proj1 (Forall_lookup _ _) Hr). exact Hat. }
  repeat split.
  - exact Hp.
  - exact Ho.
  - rewrite Hm. reflexivity.
  - exact Hex.
  - intros Hsteps. destruct Hex as (at_ & Hat & Hresting).
    specialize (Hrem i). rewrite Hat in Hrem. cbn [stop_monitoring threads] in Hrem.
    rewrite Hi in Hrem. cbn [remaining] in Hrem.
    rewrite Hat. destruct at_; try discriminate; cbn in Hrem; try lia.
    reflexivity.
Qed.

Lemma stop_during_sleep_exits_before_next_cycle_witness :
  let p' := run [(0%nat, answering 3); (0%nat, answering 3)]
                (stop_monitoring sleeping_process) in
  probed p' = ["Main Server"] /\ threads p' !! 0%nat = Some Returned.
Proof.
  destruct (stop_during_sleep_exits_before_next_cycle sleeping_process 0 60
              [(0%nat, answering 3); (0%nat, answering 3)])
    as (Hp & _ & _ & _ & Hret).
  - reflexivity.
  - repeat constructor.
  - split; [exact Hp|]. apply Hret. cbn. lia.
Defined.

(** ** The store only ever holds snapshots built by [check_server] *)

Lemma cycle_body_snapshots self server_config env :
  snapshots_only self -> snapshots_only (fst (cycle_body self server_config env)).
Proof.
  intros Hinv. unfold cycle_body.
  destruct (check_server server_config env) as [new_status|e] eqn:Hprobe;
    [|exact Hinv].
  destruct (outcome _); [|exact Hinv].
  unfold snapshots_only; cbn [fst set_server_state server_states].
  apply map_Forall_insert_2; [|exact Hinv].
  eapply check_server_Snapshot. exact Hprobe.
Qed.

Lemma monitor_loop_step_snapshots self at_ env :
  snapshots_only self ->
  snapshots_only (fst (fst (monitor_loop_step self at_ env))).
Proof.
  intros Hinv. destruct at_ as [| |[|server_config rest]| |]; cbn.
  - exact Hinv.
  - destruct (monitoring self); exact Hinv.
  - destruct (_ <? 0); exact Hinv.
  - pose proof (cycle_body_snapshots self server_config env Hinv) as Hbody.
    destruct (cycle_body self server_config env) as [self' act].
    destruct (outcome act); exact Hbody.
  - exact Hinv.
  - exact Hinv.
Qed.

Lemma run_snapshots schedule : forall p,
  snapshots_only (monitor p) -> snapshots_only (monitor (run schedule p)).
Proof.
  induction schedule as [|[i env] rest IH]; intros p Hinv; [exact Hinv|].
  cbn [run]. apply IH. unfold step_thread.
  destruct (threads p !! i) as [at_|]; [|exact Hinv].
  pose proof (monitor_loop_step_snapshots (monitor p) at_ env Hinv) as Hstep.
  destruct (monitor_loop_step (monitor p) at_ env) as [[self' at'] eff].
  exact Hstep.
Qed.

(** ** Worked examples *)

(** A load rising from 0.5 to 0.9 posts one HighLoad alert. *)
Example rising_edge_example :
  sent (handle_server_status_change fresh_monitor "Main Server"
          (online_with 90) (Some (online_with 50)))
  = [HighLoad "Main Server" 90 100 (90 # 100) 0.8].
Proof. reflexivity. Qed.

(** A load staying above 0.8 posts nothing. *)
Example sustained_load_example :
  sent (handle_server_status_change fresh_monitor "Main Server"
          (online_with 95) (Some (online_with 90)))
  = [].
Proof. reflexivity. Qed.

(** Three cycles of the loop on the default configuration: 100 players,
    then 420 players, then a peer that no longer answers.  The second cycle
    posts the HighLoad alert; the third stores an online snapshot with zero
    players and posts nothing. *)
Example three_cycles_example :
  let envs := [answering 100; answering 100; answering 100; answering 100;
               answering 100; answering 420; answering 420; answering 420;
               answering 420; unreachable; unreachable] in
  let p := run_alone 0 envs (fst (start_monitoring false idle_process)) in
  probed p = ["Main Server"; "Main Server"; "Main Server"]
  /\ outbox p = [HighLoad "Main Server" 420 500 (420 # 500) 0.8]
  /\ (Status.online <$> server_states (monitor p) !! "Main Server")
     = Some (Some true)
  /\ (Status.player_count <$> server_states (monitor p) !! "Main Server")
     = Some (Some 0).
Proof. vm_compute. repeat split. Qed.

(** * Further properties of the module *)

(** ** Replies and the snapshot built from them *)

Lemma length_split_newline s :
  length (split_newline s) = S (count_newlines s).
Proof.
  induction s as [|c rest IH]; [reflexivity|].
  cbn [split_newline count_newlines].
  destruct (Ascii.eqb c "010"%char).
  - cbn [length]. rewrite IH. reflexivity.
  - destruct (split_newline rest) as [|piece pieces]; [discriminate IH|].
    exact IH.
Qed.

(** Splitting loses nothing: joining the pieces gives the text back. *)
Lemma join_split_newline s : join_newline (split_newline s) = s.
Proof.
  induction s as [|c rest IH]; [reflexivity|].
  cbn [split_newline].
  destruct (Ascii.eqb_spec c "010"%char) as [->|Hc].
  - pose proof (length_split_newline rest) as Hlen.
    destruct (split_newline rest) as [|piece pieces]; [discriminate Hlen|].
    cbn [join_newline] in *. cbn. rewrite IH. reflexivity.
  - pose proof (length_split_newline rest) as Hlen.
    destruct (split_newline rest) as [|piece pieces]; [discriminate Hlen|].
    destruct pieces as [|piece' pieces].
    + cbn in *. rewrite IH. reflexivity.
    + cbn [join_newline] in *. cbn. rewrite <- IH. reflexivity.
Qed.

(** X1: [get_player_count] never raises; for a non-empty reply it returns
    the number of newline characters of the reply (hence never a negative
    count), and [None] for an empty reply, a timeout or a socket error. *)
Theorem get_player_count_counts_newlines self env :
  get_player_count self env
  = Ok match udp env "players" with
       | Reply text =>
           if is_empty text then None
           else Some (Z.of_nat (count_newlines text))
       | _ => None
       end.
Proof.
  unfold get_player_count, _send_query.
  destruct (udp env "players") as [text| |]; cbn; try reflexivity.
  destruct (is_empty text); cbn; [reflexivity|].
  rewrite length_split_newline. do 2 f_equal. lia.
Qed.

Lemma or_zero_of_nat n : or_zero (Some (Z.of_nat n)) = Z.of_nat n.
Proof. cbn. destruct (Z.of_nat n =? 0) eqn:E; [apply Z.eqb_eq in E; lia|reflexivity]. Qed.

Lemma ping_form self env : ping self env = Ok (ping_of env).
Proof.
  unfold ping, ping_of, _send_query.
  destruct (udp env "ping"); reflexivity.
Qed.

Lemma player_count_or_zero self env :
  exists r, get_player_count self env = Ok r /\ or_zero r = players_of env.
Proof.
  unfold get_player_count, players_of, _send_query.
  destruct (udp env "players") as [text| |]; cbn; eauto.
  destruct text as [|c text]; cbn [is_empty]; cbn [mret result_ret]; eauto.
  eexists; split; [reflexivity|].
  rewrite length_split_newline.
  replace (Z.of_nat (S (count_newlines (String c text))) - 1)
    with (Z.of_nat (count_newlines (String c text))) by lia.
  apply or_zero_of_nat.
Qed.

(** The snapshot [check_server] returns, field by field. *)
Lemma check_server_form server_config env :
  check_server server_config env
  = Ok {| Status.name := ServerConfig.name server_config;
          Status.host := ServerConfig.host server_config;
          Status.port := ServerConfig.port server_config;
          Status.online := Some true;
          Status.ping := Some (ping_of env);
          Status.player_count := Some (players_of env);
          Status.max_players :=
            Some (get (ServerConfig.max_players server_config) 100);
          Status.error := None;
          Status.timestamp := utcnow env |}.
Proof.
  unfold check_server.
  set (query := {| q_host := _; q_port := _; q_timeout := _ |}).
  rewrite (ping_form query env).
  destruct (player_count_or_zero query env) as (r & -> & Hr).
  destruct (get_server_info_returns query env) as [i ->].
  cbn. rewrite Hr. reflexivity.
Qed.

(** X2: [check_server] never raises, and its snapshot is determined field by
    field: the identity and [max_players] (100 when not configured) come from
    the configuration, it is always online without an error, the ping is the
    measured time when the ping datagram was answered and [None] otherwise,
    and the player count is the number of newlines of the players reply, 0
    when that query failed; the count is never negative. *)
Theorem check_server_snapshot_fields server_config env :
  exists st,
    check_server server_config env = Ok st
    /\ Status.name st = ServerConfig.name server_config
    /\ Status.host st = ServerConfig.host server_config
    /\ Status.port st = ServerConfig.port server_config
    /\ Status.online st = Some true
    /\ Status.error st = None
    /\ Status.ping st
       = Some match udp env "ping" with
              | Reply _ => Some (elapsed_ms env)
              | _ => None
              end
    /\ Status.player_count st
       = Some match udp env "players" with
              | Reply text => Z.of_nat (count_newlines text)
              | _ => 0
              end
    /\ 0 <= get (Status.player_count st) 0
    /\ Status.max_players st
       = Some (get (ServerConfig.max_players server_config) 100).
Proof.
  eexists. split; [apply check_server_form|].
  cbn. repeat split.
  unfold players_of. destruct (udp env "players"); lia.
Qed.

(** ** More on the transition handler *)

(** X3: whatever the two snapshots, one call of the handler posts one of
    five lists of alerts: nothing, the offline alert alone, the online alert
    alone, the high-load alert alone, or the online alert followed by the
    high-load alert.  In particular an offline alert is never accompanied by
    another alert and no kind is posted twice. *)
Theorem handler_posts_one_of_five_lists self server_name new_status old_status :
  let posted :=
    sent (handle_server_status_change self server_name new_status
            (Some old_status)) in
  let high := HighLoad server_name
                (get (Status.player_count new_status) 0)
                (get (Status.max_players new_status) 100) in
  posted = []
  \/ posted = [WentOffline server_name (Status.host new_status)
                           (Status.port new_status)]
  \/ posted = [WentOnline server_name]
  \/ (exists load, posted = [high load 0.8%Q])
  \/ (exists load, posted = [WentOnline server_name; high load 0.8%Q]).
Proof.
  cbv zeta.
  handler_form new_status old_status l ol Hl Hol. cbn [sent].
  destruct (Status.online old_status) as [[|]|];
    destruct (Status.online new_status) as [[|]|]; cbn;
    destruct (Qle_bool threshold_literal l);
    destruct (Qlt_bool ol threshold_literal); cbn; eauto 7.
Qed.

(** X4: comparing a snapshot with itself posts nothing as soon as the
    snapshot has an ['online'] key; without that key the two defaults of the
    first test disagree and the offline alert is posted. *)
Theorem unchanged_snapshot_posts_nothing self server_name st :
  sent (handle_server_status_change self server_name st (Some st))
  = match Status.online st with
    | Some _ => []
    | None => [WentOffline server_name (Status.host st) (Status.port st)]
    end.
Proof.
  destruct (new_load_returns st) as (l & Hl & _).
  assert (Hol : old_load st = Ok l) by exact Hl.
  rewrite (handle_server_status_change_unfold _ _ _ _ _ _ Hl Hol). cbn [sent].
  unfold Qlt_bool.
  destruct (Status.online st) as [[|]|]; cbn;
    destruct (Qle_bool threshold_literal l); reflexivity.
Qed.

(** The comparison of a guarded quotient with 0.8, on the integers. *)
Lemma threshold_le_quotient a b :
  0 < b ->
  Qle_bool threshold_literal (inject_Z a / inject_Z b) = true
  <-> 4 * b <= 5 * a.
Proof.
  intros Hb. destruct b as [|b|b]; try lia.
  unfold Qle_bool, threshold_literal. cbn.
  rewrite Z.leb_le. lia.
Qed.

Lemma guarded_load_reaches_threshold a b q :
  (if 0 <? b then truediv a b else Ok 0%Q) = Ok q ->
  Qle_bool threshold_literal q = true <-> 0 < b /\ 4 * b <= 5 * a.
Proof.
  intros Hq.
  destruct (guarded_truediv a b) as (q' & Hq' & Hzero & Hpos).
  rewrite Hq in Hq'. injection Hq' as <-.
  destruct (Z.lt_ge_cases 0 b) as [Hb|Hb].
  - rewrite (Hpos Hb), (threshold_le_quotient a b Hb). tauto.
  - rewrite (Hzero Hb). cbn. split; [discriminate|lia].
Qed.


(** ** One pass of the loop body *)

Lemma check_server_snapshot_of server_config env :
  check_server server_config env = Ok (snapshot_of server_config env).
Proof. apply check_server_form. Qed.

(** The body never raises: it stores the new snapshot and posts what the
    handler posts against the stored one. *)
Lemma cycle_body_form self server_config env :
  cycle_body self server_config env
  = (set_server_state (ServerConfig.name server_config)
       (snapshot_of server_config env) self,
     Act (sent (handle_server_status_change self
                  (ServerConfig.name server_config)
                  (snapshot_of server_config env)
                  (server_states self !! ServerConfig.name server_config)))
         (Ok tt)).
Proof.
  unfold cycle_body. rewrite check_server_snapshot_of.
  rewrite handle_server_status_change_returns. reflexivity.
Qed.

(** X6: one pass of the loop body for a server never raises, whatever the
    network did; it puts the snapshot just taken under the server's name in
    the store and leaves every other entry, the flag and the configuration
    as they were. *)
Theorem cycle_body_replaces_one_entry self server_config env :
  let after := fst (cycle_body self server_config env) in
  exists st,
    check_server server_config env = Ok st
    /\ outcome (snd (cycle_body self server_config env)) = Ok tt
    /\ server_states after !! ServerConfig.name server_config = Some st
    /\ (forall other, other <> ServerConfig.name server_config ->
          server_states after !! other = server_states self !! other)
    /\ monitoring after = monitoring self
    /\ config after = config self.
Proof.
  cbv zeta. exists (snapshot_of server_config env).
  rewrite cycle_body_form. cbn [fst snd outcome set_server_state server_states
                                monitoring config].
  split; [apply check_server_snapshot_of|]. split; [reflexivity|].
  split; [apply lookup_insert_eq|]. split; [|split; reflexivity].
  intros other Hne. apply lookup_insert_ne. congruence.
Qed.

(** X7: two passes for entries of the same name (the same server in two
    consecutive cycles, or two entries that share a name within one cycle):
    the second pass posts what the handler posts for its own snapshot
    against the snapshot taken by the first. *)
Theorem next_pass_compares_with_previous self cfg1 cfg2 env1 env2 :
  ServerConfig.name cfg1 = ServerConfig.name cfg2 ->
  exists st1 st2,
    check_server cfg1 env1 = Ok st1
    /\ check_server cfg2 env2 = Ok st2
    /\ sent (snd (cycle_body (fst (cycle_body self cfg1 env1)) cfg2 env2))
       = sent (handle_server_status_change self (ServerConfig.name cfg2)
                 st2 (Some st1)).
Proof.
  intros Hname.
  exists (snapshot_of cfg1 env1), (snapshot_of cfg2 env2).
  split; [apply check_server_snapshot_of|].
  split; [apply check_server_snapshot_of|].
  rewrite !cycle_body_form.
  cbn [fst snd sent set_server_state server_states].
  rewrite Hname, lookup_insert_eq. reflexivity.
Qed.

Lemma next_pass_compares_with_previous_witness :
  sent (snd (cycle_body
               (fst (cycle_body fresh_monitor main_server (answering 100)))
               main_server (answering 420)))
  = [HighLoad "Main Server" 420 500 (420 # 500) 0.8].
Proof.
  destruct (next_pass_compares_with_previous fresh_monitor main_server
              main_server (answering 100) (answering 420) eq_refl)
    as (st1 & st2 & H1 & H2 & ->).
  rewrite check_server_snapshot_of in H1, H2.
  injection H1 as <-. injection H2 as <-.
  vm_compute. reflexivity.
Defined.

(** X8: the first pass for a name the store does not know posts no alert
    and stores the snapshot, so that the next pass has something to compare
    with. *)
Theorem first_pass_posts_nothing self server_config env :
  server_states self !! ServerConfig.name server_config = None ->
  snd (cycle_body self server_config env) = Act [] (Ok tt)
  /\ is_Some (server_states (fst (cycle_body self server_config env))
              !! ServerConfig.name server_config).
Proof.
  intros Hnew. rewrite cycle_body_form, Hnew.
  cbn [fst snd set_server_state server_states].
  split; [reflexivity|]. rewrite lookup_insert_eq. eauto.
Qed.

Lemma first_pass_posts_nothing_witness :
  snd (cycle_body fresh_monitor main_server (answering 450)) = Act [] (Ok tt)
  /\ is_Some (server_states
                (fst (cycle_body fresh_monitor main_server (answering 450)))
              !! "Main Server").
Proof.
  apply (first_pass_posts_nothing fresh_monitor main_server (answering 450)).
  reflexivity.
Defined.

(** ** Threads of the loop *)

Lemma step_thread_effect i env p at_ :
  threads p !! i = Some at_ ->
  monitor (step_thread i env p) = fst (fst (monitor_loop_step (monitor p) at_ env))
  /\ threads (step_thread i env p)
     = <[i := snd (fst (monitor_loop_step (monitor p) at_ env))]> (threads p)
  /\ probed (step_thread i env p)
     = probed p ++ probes (snd (monitor_loop_step (monitor p) at_ env))
  /\ outbox (step_thread i env p)
     = outbox p ++ alerts (snd (monitor_loop_step (monitor p) at_ env)).
Proof.
  intros H. unfold step_thread. rewrite H.
  destruct (monitor_loop_step (monitor p) at_ env) as [[self' at'] eff].
  cbn. auto.
Qed.

Lemma step_thread_lookup i env p at_ :
  threads p !! i = Some at_ ->
  threads (step_thread i env p) !! i
  = Some (snd (fst (monitor_loop_step (monitor p) at_ env))).
Proof.
  intros H. destruct (step_thread_effect i env p at_ H) as (_ & -> & _).
  apply list_lookup_insert_eq. eapply lookup_lt_Some. exact H.
Qed.

Lemma run_alone_app i envs1 envs2 p :
  run_alone i (envs1 ++ envs2) p = run_alone i envs2 (run_alone i envs1 p).
Proof.
  revert p. induction envs1 as [|e envs1 IH]; intros p; [reflexivity|].
  apply IH.
Qed.

Lemma monitor_loop_step_in_cycle self server_config rest env :
  monitor_loop_step self (InCycle (server_config :: rest)) env
  = (set_server_state (ServerConfig.name server_config)
       (snapshot_of server_config env) self,
     InCycle rest,
     {| probes := [ServerConfig.name server_config];
        alerts := sent (handle_server_status_change self
                          (ServerConfig.name server_config)
                          (snapshot_of server_config env)
                          (server_states self
                             !! ServerConfig.name server_config)) |}).
Proof. cbn [monitor_loop_step]. rewrite cycle_body_form. reflexivity. Qed.

(** A thread inside a cycle works through the servers left, one per step,
    and is never thrown out of the cycle. *)
Lemma run_cycle i : forall todo envs p,
  threads p !! i = Some (InCycle todo) ->
  length envs = length todo ->
  threads (run_alone i envs p) !! i = Some (InCycle [])
  /\ probed (run_alone i envs p) = probed p ++ map ServerConfig.name todo
  /\ monitoring (monitor (run_alone i envs p)) = monitoring (monitor p)
  /\ config (monitor (run_alone i envs p)) = config (monitor p).
Proof.
  induction todo as [|server_config rest IH]; intros envs p Hi Hlen.
  - destruct envs; [|discriminate Hlen]. cbn. rewrite app_nil_r. auto.
  - destruct envs as [|e envs]; [discriminate Hlen|]. injection Hlen as Hlen.
    pose proof (step_thread_lookup i e p _ Hi) as Hat.
    destruct (step_thread_effect i e p _ Hi) as (Hm & _ & Hp & _).
    rewrite monitor_loop_step_in_cycle in Hat, Hm, Hp. cbn in Hat, Hm, Hp.
    change (run_alone i (e :: envs) p)
      with (run_alone i envs (step_thread i e p)).
    destruct (IH envs (step_thread i e p) Hat Hlen) as (H1 & H2 & H3 & H4).
    split; [exact H1|]. split; [|split].
    + rewrite H2, Hp, <- app_assoc. reflexivity.
    + rewrite H3, Hm. reflexivity.
    + rewrite H4, Hm. reflexivity.
Qed.



(** X10: when [stop_monitoring] is called while the loop thread is inside a
    cycle, the thread still probes every server left in that cycle, then
    sleeps, and returns from [monitor_loop] only at the next loop test: the
    stop takes effect after the cycle and the sleep, not in the middle. *)
Theorem stop_inside_cycle_finishes_the_cycle p i rest envs e1 e2 e3 :
  threads p !! i = Some (InCycle rest) ->
  length envs = length rest ->
  probed (run_alone i (envs ++ [e1; e2; e3]) (stop_monitoring p))
  = probed p ++ map ServerConfig.name rest
  /\ threads (run_alone i (envs ++ [e1; e2; e3]) (stop_monitoring p)) !! i
     = Some Returned.
Proof.
  intros Hi Hlen. rewrite run_alone_app.
  destruct (run_cycle i rest envs (stop_monitoring p) Hi Hlen)
    as (H1 & H2 & H3 & _).
  set (p1 := run_alone i envs (stop_monitoring p)) in *.
  cbn [stop_monitoring probed monitor set_monitoring monitoring] in H2, H3.
  change (run_alone i [e1; e2; e3] p1)
    with (step_thread i e3 (step_thread i e2 (step_thread i e1 p1))).
  (* into the sleep *)
  pose proof (step_thread_lookup i e1 p1 _ H1) as Hat1.
  destruct (step_thread_effect i e1 p1 _ H1) as (Hm1 & _ & Hp1 & _).
  set (p2 := step_thread i e1 p1) in *.
  assert (Hsleep : exists s, threads p2 !! i = Some (Sleeping s)
                             /\ monitor p2 = monitor p1
                             /\ probed p2 = probed p1).
  { cbn [monitor_loop_step] in Hat1, Hm1, Hp1.
    destruct (_ <? 0); cbn in Hat1, Hm1, Hp1; rewrite app_nil_r in Hp1; eauto. }
  destruct Hsleep as (s & Hat1' & Hm1' & Hp1').
  (* waking up *)
  pose proof (step_thread_lookup i e2 p2 _ Hat1') as Hat2.
  destruct (step_thread_effect i e2 p2 _ Hat1') as (Hm2 & _ & Hp2 & _).
  set (p3 := step_thread i e2 p2) in *.
  cbn in Hat2, Hm2, Hp2. rewrite app_nil_r in Hp2.
  (* the loop test *)
  pose proof (step_thread_lookup i e3 p3 _ Hat2) as Hat3.
  destruct (step_thread_effect i e3 p3 _ Hat2) as (_ & _ & Hp3 & _).
  cbn [monitor_loop_step] in Hat3, Hp3.
  rewrite Hm2, Hm1', H3 in Hat3, Hp3. cbn in Hat3, Hp3.
  rewrite app_nil_r in Hp3.
  split; [|exact Hat3].
  rewrite Hp3, Hp2, Hp1', H2. reflexivity.
Qed.

Lemma stop_inside_cycle_finishes_the_cycle_witness :
  let p := {| monitor := set_monitoring true fresh_monitor;
              threads := [InCycle [main_server]];
              probed := [];
              outbox := [] |} in
  let envs := [answering 3; answering 3; answering 3; answering 3] in
  probed (run_alone 0 envs (stop_monitoring p)) = ["Main Server"]
  /\ threads (run_alone 0 envs (stop_monitoring p)) !! 0%nat = Some Returned.
Proof.
  apply (stop_inside_cycle_finishes_the_cycle
           {| monitor := set_monitoring true fresh_monitor;
              threads := [InCycle [main_server]];
              probed := [];
              outbox := [] |}
           0 [main_server] [answering 3]
           (answering 3) (answering 3) (answering 3)); reflexivity.
Defined.

(** ** What the loop never posts *)

Lemma handler_online_only_high_load self server_name new_status old_status :
  Status.online new_status = Some true ->
  match old_status with
  | Some old => Status.online old = Some true
  | None => True
  end ->
  Forall (fun a => kind_of a = KHighLoad)
    (sent (handle_server_status_change self server_name new_status old_status)).
Proof.
  intros Hnew Hold. destruct old_status as [old|]; [|constructor].
  handler_form new_status old l ol Hl Hol.
  rewrite Hnew, Hold. cbn.
  destruct (Qle_bool threshold_literal l && Qlt_bool ol threshold_literal);
    repeat constructor.
Qed.

Lemma monitor_loop_step_all_online self at_ env :
  all_online self ->
  all_online (fst (fst (monitor_loop_step self at_ env)))
  /\ Forall (fun a => kind_of a = KHighLoad)
       (alerts (snd (monitor_loop_step self at_ env))).
Proof.
  intros Hinv. destruct at_ as [| |[|server_config rest]| |].
  - cbn. split; [exact Hinv|constructor].
  - cbn. destruct (monitoring self); (split; [exact Hinv|constructor]).
  - cbn. destruct (_ <? 0); (split; [exact Hinv|constructor]).
  - rewrite monitor_loop_step_in_cycle. cbn [fst snd alerts]. split.
    + unfold all_online. cbn [set_server_state server_states].
      apply map_Forall_insert_2; [reflexivity|exact Hinv].
    + apply handler_online_only_high_load; [reflexivity|].
      destruct (server_states self !! ServerConfig.name server_config)
        as [old|] eqn:Hold; [|exact I].
      exact (Hinv _ _ Hold).
  - cbn. split; [exact Hinv|constructor].
  - cbn. split; [exact Hinv|constructor].
Qed.

(** X11: from a store that holds online snapshots only (an empty store in
    particular), whatever the schedule and whatever the network does, the
    store keeps holding online snapshots only and every alert the loop posts
    is a high-load alert: the loop never posts an offline nor an online
    alert. *)
Theorem loop_posts_high_load_alerts_only p schedule :
  all_online (monitor p) ->
  all_online (monitor (run schedule p))
  /\ exists added,
      outbox (run schedule p) = outbox p ++ added
      /\ Forall (fun a => kind_of a = KHighLoad) added.
Proof.
  revert p. induction schedule as [|[i env] rest IH]; intros p Hinv.
  - cbn. split; [exact Hinv|]. exists []. rewrite app_nil_r. auto.
  - cbn [run].
    assert (Hstep : all_online (monitor (step_thread i env p))
                    /\ exists added,
                        outbox (step_thread i env p) = outbox p ++ added
                        /\ Forall (fun a => kind_of a = KHighLoad) added).
    { destruct (threads p !! i) as [at_|] eqn:Hi.
      - destruct (step_thread_effect i env p at_ Hi) as (Hm & _ & _ & Ho).
        destruct (monitor_loop_step_all_online (monitor p) at_ env Hinv)
          as (Hinv' & Hall).
        rewrite Hm, Ho. eauto.
      - unfold step_thread. rewrite Hi. split; [exact Hinv|].
        exists []. rewrite app_nil_r. auto. }
    destruct Hstep as (Hinv' & added1 & Ho1 & Hall1).
    destruct (IH _ Hinv') as (Hinv'' & added2 & Ho2 & Hall2).
    split; [exact Hinv''|].
    exists (added1 ++ added2). split.
    + rewrite Ho2, Ho1, <- app_assoc. reflexivity.
    + apply Forall_app. auto.
Qed.

Lemma loop_posts_high_load_alerts_only_witness :
  Forall (fun a => kind_of a = KHighLoad)
    (outbox (run_alone 0 [answering 100; answering 100; answering 100;
                          answering 100; answering 100; answering 420;
                          answering 420; answering 420; answering 420;
                          unreachable; unreachable]
               (fst (start_monitoring false idle_process)))).
Proof.
  destruct (loop_posts_high_load_alerts_only
              (fst (start_monitoring false idle_process))
              (map (fun env => (0%nat, env))
                   [answering 100; answering 100; answering 100;
                    answering 100; answering 100; answering 420;
                    answering 420; answering 420; answering 420;
                    unreachable; unreachable]))
    as (_ & added & Hout & Hall).
  - intros server_name st H. discriminate H.
  - unfold run_alone. rewrite Hout. exact Hall.
Defined.

(** ** Only [stop_monitoring] ends a loop *)

Lemma monitor_loop_step_flag_up self at_ env :
  monitoring self = true ->
  monitoring (fst (fst (monitor_loop_step self at_ env))) = true
  /\ (at_ <> Returned -> snd (fst (monitor_loop_step self at_ env)) <> Returned).
Proof.
  intros Hflag. destruct at_ as [| |[|server_config rest]| |].
  - cbn. split; [reflexivity|discriminate].
  - cbn. rewrite Hflag. cbn. split; [exact Hflag|discriminate].
  - cbn. destruct (_ <? 0); cbn; (split; [exact Hflag|discriminate]).
  - rewrite monitor_loop_step_in_cycle. cbn. split; [exact Hflag|discriminate].
  - cbn. split; [exact Hflag|discriminate].
  - cbn. split; [exact Hflag|congruence].
Qed.

(** X12: no step of a loop thread clears the flag, so as long as nobody
    calls [stop_monitoring] a loop that has not returned never returns,
    under any schedule and whatever happens on the network. *)
Theorem loop_runs_until_stopped p i at_ schedule :
  monitoring (monitor p) = true ->
  threads p !! i = Some at_ ->
  at_ <> Returned ->
  monitoring (monitor (run schedule p)) = true
  /\ exists at', threads (run schedule p) !! i = Some at' /\ at' <> Returned.
Proof.
  revert p at_. induction schedule as [|[j env] rest IH];
    intros p at_ Hflag Hi Hat.
  - cbn. eauto.
  - cbn [run]. destruct (threads p !! j) as [at_j|] eqn:Hj.
    + destruct (step_thread_effect j env p at_j Hj) as (Hm & Ht & _ & _).
      destruct (monitor_loop_step_flag_up (monitor p) at_j env Hflag)
        as (Hflag' & Hnot).
      destruct (decide (j = i)) as [->|Hne].
      * apply (IH (step_thread i env p)
                 (snd (fst (monitor_loop_step (monitor p) at_j env)))).
        -- rewrite Hm. exact Hflag'.
        -- apply step_thread_lookup. exact Hj.
        -- apply Hnot. congruence.
      * apply (IH (step_thread j env p) at_).
        -- rewrite Hm. exact Hflag'.
        -- rewrite Ht, list_lookup_insert_ne by exact Hne. exact Hi.
        -- exact Hat.
    + unfold step_thread. rewrite Hj. apply (IH p at_); assumption.
Qed.

Lemma loop_runs_until_stopped_witness :
  exists at',
    threads (run_alone 0 [unreachable; unreachable; unreachable; unreachable;
                          unreachable; unreachable]
               sleeping_process) !! 0%nat = Some at'
    /\ at' <> Returned.
Proof.
  apply (loop_runs_until_stopped sleeping_process 0 (Sleeping 60)
           (map (fun env => (0%nat, env))
                [unreachable; unreachable; unreachable; unreachable;
                 unreachable; unreachable])).
  - reflexivity.
  - reflexivity.
  - discriminate.
Defined.

(** X13: a restart that comes before the stopped loop has woken up brings
    the old loop back.  When [stop_monitoring] is called while a loop thread
    sleeps and [start_monitoring] is called next, then as soon as the new
    thread has set the flag, the old thread finds the flag up at its loop
    test and starts another cycle: both threads now run the loop. *)
Theorem restart_before_wakeup_revives_old_loop daemon p i seconds e0 e1 e2 :
  threads p !! i = Some (Sleeping seconds) ->
  let restarted := fst (start_monitoring daemon (stop_monitoring p)) in
  let j := snd (start_monitoring daemon (stop_monitoring p)) in
  let p' := run [(j, e0); (i, e1); (i, e2)] restarted in
  i <> j
  /\ threads p' !! i = Some (InCycle (get (servers (config (monitor p))) []))
  /\ threads p' !! j = Some AtWhile.
Proof.
  intros Hi. cbv zeta.
  cbn [start_monitoring stop_monitoring fst snd threads monitor probed outbox].
  set (j := length (threads p)).
  assert (Hij : i <> j) by (apply lookup_lt_Some in Hi; unfold j; lia).
  set (p0 := {| monitor := set_monitoring false (monitor p);
                threads := threads p ++ [AtEntry];
                probed := probed p;
                outbox := outbox p |}).
  assert (Hj0 : threads p0 !! j = Some AtEntry) by apply lookup_new_thread.
  cbn [run].
  (* the new thread sets the flag *)
  pose proof (step_thread_lookup j e0 p0 _ Hj0) as Hj1.
  destruct (step_thread_effect j e0 p0 _ Hj0) as (Hm1 & Ht1 & _ & _).
  set (p1 := step_thread j e0 p0) in *. cbn in Hj1, Hm1, Ht1.
  assert (Hi1 : threads p1 !! i = Some (Sleeping seconds)).
  { rewrite Ht1, list_lookup_insert_ne by congruence.
    apply lookup_app_l_Some. exact Hi. }
  (* the old thread wakes up *)
  pose proof (step_thread_lookup i e1 p1 _ Hi1) as Hi2.
  destruct (step_thread_effect i e1 p1 _ Hi1) as (Hm2 & Ht2 & _ & _).
  set (p2 := step_thread i e1 p1) in *. cbn in Hi2, Hm2, Ht2.
  (* and finds the flag up *)
  pose proof (step_thread_lookup i e2 p2 _ Hi2) as Hi3.
  destruct (step_thread_effect i e2 p2 _ Hi2) as (_ & Ht3 & _ & _).
  cbn [monitor_loop_step] in Hi3, Ht3. rewrite Hm2, Hm1 in Hi3, Ht3.
  cbn in Hi3, Ht3.
  split; [exact Hij|]. split; [exact Hi3|].
  rewrite Ht3, list_lookup_insert_ne by exact Hij.
  rewrite Ht2, list_lookup_insert_ne by exact Hij.
  exact Hj1.
Qed.

Lemma restart_before_wakeup_revives_old_loop_witness :
  threads (run [(1%nat, answering 3); (0%nat, answering 3); (0%nat, answering 3)]
             (fst (start_monitoring true (stop_monitoring sleeping_process))))
  !! 0%nat
  = Some (InCycle [main_server]).
Proof.
  apply (restart_before_wakeup_revives_old_loop true sleeping_process 0 60
           (answering 3) (answering 3) (answering 3)).
  reflexivity.
Defined.

(** ** The status report *)

Lemma monitor_loop_step_dom self at_ env :
  dom (server_states (fst (fst (monitor_loop_step self at_ env))))
  = (list_to_set (probes (snd (monitor_loop_step self at_ env))) : gset string)
    ∪ dom (server_states self).
Proof.
  destruct at_ as [| |[|server_config rest]| |];
    try (cbn; try destruct (monitoring self); try destruct (_ <? 0); cbn;
         rewrite (left_id_L ∅ (∪)); reflexivity).
  rewrite monitor_loop_step_in_cycle.
  cbn [fst snd probes set_server_state server_states].
  rewrite dom_insert_L, list_to_set_cons, list_to_set_nil, (right_id_L ∅ (∪)).
  reflexivity.
Qed.

(** X14: the status report lists exactly the servers probed so far.  If the
    names in the store are the names probed (as in a process that has not
    run yet), then after any schedule the servers of [get_status_report]
    are exactly the names on which [check_server] has been run. *)
Theorem status_report_lists_probed_servers p schedule now :
  dom (server_states (monitor p)) = (list_to_set (probed p) : gset string) ->
  dom (report_servers (get_status_report (monitor (run schedule p)) now))
  = (list_to_set (probed (run schedule p)) : gset string).
Proof.
  cbn [get_status_report report_servers].
  revert p. induction schedule as [|[i env] rest IH]; intros p Hinv.
  - exact Hinv.
  - cbn [run]. apply IH.
    destruct (threads p !! i) as [at_|] eqn:Hi.
    + destruct (step_thread_effect i env p at_ Hi) as (Hm & _ & Hp & _).
      rewrite Hm, Hp, monitor_loop_step_dom, Hinv, list_to_set_app_L.
      apply (comm_L (∪)).
    + unfold step_thread. rewrite Hi. exact Hinv.
Qed.

Lemma status_report_lists_probed_servers_witness :
  dom (report_servers
         (get_status_report
            (monitor (run_alone 0 [answering 3; answering 3; answering 3]
                        (fst (start_monitoring false idle_process))))
            "2024-01-01T00:00:00"))
  = (list_to_set ["Main Server"] : gset string).
Proof.
  unfold run_alone.
  rewrite (status_report_lists_probed_servers
             (fst (start_monitoring false idle_process))
             (map (fun env => (0%nat, env))
                  [answering 3; answering 3; answering 3])
             "2024-01-01T00:00:00").
  - reflexivity.
  - apply dom_empty_L.
Defined.

(** ** The notifier *)

Lemma send_alert_posts self title_ description color_ fields env :
  Webhook.posted (Webhook.send_alert self title_ description color_ fields env)
  = [Webhook.build_embed title_ description color_ fields env].
Proof.
  unfold Webhook.send_alert.
  destruct (Webhook.post env (webhook_url self) _) as [code|detail];
    [destruct (_ || _)|]; reflexivity.
Qed.

(** X15: [send_alert] always posts one embed to the webhook and never lets
    a transport failure out: the flag it returns is true exactly when the
    webhook answered 200 or 204.  The embed has a ["fields"] key exactly when
    a non-empty list of fields was given. *)
Theorem send_alert_reports_delivery self title_ description color_ fields env :
  let sent_ := Webhook.send_alert self title_ description color_ fields env in
  let e := Webhook.build_embed title_ description color_ fields env in
  Webhook.posted sent_ = [e]
  /\ (Webhook.delivered sent_ = true
      <-> Webhook.post env (webhook_url self) [e] = Webhook.Responded 200
          \/ Webhook.post env (webhook_url self) [e] = Webhook.Responded 204)
  /\ (Webhook.embed_fields e = None <-> fields = None \/ fields = Some []).
Proof.
  cbv zeta. unfold Webhook.send_alert.
  destruct (Webhook.post env (webhook_url self) _) as [code|detail] eqn:Hpost.
  - destruct (code =? 200) eqn:H200; [|destruct (code =? 204) eqn:H204]; cbn.
    + apply Z.eqb_eq in H200. subst code. repeat split; auto.
      all: destruct fields as [[|f fs]|]; cbn; intuition congruence.
    + apply Z.eqb_eq in H204. subst code. repeat split; auto.
      all: destruct fields as [[|f fs]|]; cbn; intuition congruence.
    + apply Z.eqb_neq in H200, H204. repeat split.
      * discriminate.
      * intros [H|H]; congruence.
      * destruct fields as [[|f fs]|]; cbn; intuition congruence.
      * destruct fields as [[|f fs]|]; cbn; intuition congruence.
  - cbn. repeat split.
    + discriminate.
    + intros [H|H]; discriminate.
    + destruct fields as [[|f fs]|]; cbn; intuition congruence.
    + destruct fields as [[|f fs]|]; cbn; intuition congruence.
Qed.

(** X16: [send_status_update] posts one embed titled after the server whose
    fields are never dropped: Status and Players, followed by Ping exactly
    when a ping value is given (a ping of 0 ms included).  The embed is
    green exactly when the status text is the string Online. *)
Theorem send_status_update_embed self server_name status player_count
    max_players ping_ms env :
  exists e fs,
    Webhook.posted (Webhook.send_status_update self server_name status
                      player_count max_players ping_ms env) = [e]
    /\ Webhook.embed_title e = "SA-MP Server: " +:+ server_name
    /\ Webhook.embed_fields e = Some fs
    /\ map Webhook.field_name fs
       = ["Status"; "Players"]
         ++ match ping_ms with Some _ => ["Ping"] | None => [] end
    /\ (Webhook.embed_color e = 0x00FF00 <-> status = "Online")
    /\ (Webhook.embed_color e = 0xFF0000 <-> status <> "Online").
Proof.
  unfold Webhook.send_status_update.
  rewrite send_alert_posts.
  eexists. eexists. split; [reflexivity|]. cbn.
  split; [reflexivity|]. split; [reflexivity|].
  split; [destruct ping_ms; reflexivity|].
  destruct (String.eqb_spec status "Online") as [->|Hne]; cbn.
  - split; split; intros H; try reflexivity; try discriminate; congruence.
  - split; split; intros H; try reflexivity; try discriminate; congruence.
Qed.

(** ** Construction *)


(** ** An outage seen from the loop *)

(** X18: when the players query of a pass fails (timeout or socket error)
    and the store holds online snapshots only, the pass posts no alert at
    all: the snapshot it builds is online with zero players, which is
    neither a transition nor a high load. *)
Theorem failed_query_posts_nothing self server_config env :
  all_online self ->
  (forall text, udp env "players" <> Reply text) ->
  snd (cycle_body self server_config env) = Act [] (Ok tt).
Proof.
  intros Hinv Hfail. rewrite cycle_body_form. cbn [snd]. f_equal.
  destruct (server_states self !! ServerConfig.name server_config)
    as [old|] eqn:Hold; [|reflexivity].
  pose proof (Hinv _ _ Hold) as Hon. cbn beta in Hon.
  destruct (new_load_returns (snapshot_of server_config env)) as (l & Hl & _).
  destruct (old_load_returns old) as (ol & Hol & _).
  rewrite (handle_server_status_change_unfold _ _ _ _ _ _ Hl Hol).
  rewrite Hon. cbn [sent snapshot_of Status.online get default andb negb app].
  assert (Hlow : Qle_bool threshold_literal l = false).
  { apply not_true_iff_false. intros Hhigh.
    apply (guarded_load_reaches_threshold _ _ _ Hl) in Hhigh.
    cbv [snapshot_of Status.player_count Status.max_players get default
         from_option id] in Hhigh.
    assert (Hzero : players_of env = 0).
    { unfold players_of. destruct (udp env "players") as [text| |];
        [destruct (Hfail text eq_refl)|reflexivity|reflexivity]. }
    rewrite Hzero in Hhigh. lia. }
  rewrite Hlow. reflexivity.
Qed.

Lemma failed_query_posts_nothing_witness :
  snd (cycle_body
         (fst (cycle_body fresh_monitor main_server (answering 450)))
         main_server unreachable)
  = Act [] (Ok tt).
Proof.
  apply (failed_query_posts_nothing
           (fst (cycle_body fresh_monitor main_server (answering 450)))
           main_server unreachable).
  - rewrite cycle_body_form. unfold all_online.
    cbn [fst set_server_state server_states].
    apply map_Forall_insert_2; [reflexivity|].
    intros k st H. discriminate H.
  - intros text H. discriminate H.
Defined.
